(** * cointop: the CoinGecko API service

    A shallow embedding of [pkg/api/impl/coingecko/coingecko.go]: the
    identifier-resolution cache ([cacheCoinsIDList], [coinNameToID]), the
    paginated acquisition pipeline ([getPaginatedCoinData], [GetAllCoinData],
    [GetCoinData]) and the price lookup ([Price]).

    Conventions of the embedding:
    - Go strings are [string]s of bytes.  The case and white-space functions
      of Go's [strings] package are modelled on ASCII text, where they act byte
      by byte; bytes from 0x80 on are left as they are.
    - [float64] is Rocq's primitive binary64 float, so [x == 0] is IEEE
      equality ([PrimFloat.eqb]).
    - [sync.Map] is a finite map from string keys to string values.
    - A Go pair [(T, error)] is a pair [T * option error]; [None] is [nil].
    - The HTTP client is a record of oracles; what the service does to the
      outside world (requests, sleeps, channel sends, close) is a trace of
      events. *)

From Stdlib Require Import ZArith Ascii String List Bool Lia.
From Stdlib Require Import DecimalString Sorted.
From Stdlib Require Import Floats.PrimFloat.
From stdpp Require Import gmap strings list fin_maps.

Open Scope string_scope.
Open Scope list_scope.

(** ** Go's [strings] package, on ASCII text *)
Module strings.

Definition is_upper (c : ascii) : bool :=
  let n := nat_of_ascii c in (65 <=? n)%nat && (n <=? 90)%nat.

Definition lower_byte (c : ascii) : ascii :=
  if is_upper c then ascii_of_nat (nat_of_ascii c + 32) else c.

(** [strings.ToLower], as it acts on ASCII text: the letters [A] to [Z]
    become [a] to [z], every other byte stays. *)
Fixpoint ToLower (s : string) : string :=
  match s with
  | EmptyString => EmptyString
  | String c r => String (lower_byte c) (ToLower r)
  end.

(** White space as [strings.TrimSpace] sees it in ASCII:
    tab, line feed, vertical tab, form feed, carriage return, space. *)
Definition is_space (c : ascii) : bool :=
  let n := nat_of_ascii c in
  ((9 <=? n)%nat && (n <=? 13)%nat) || (n =? 32)%nat.

Fixpoint TrimLeft (s : string) : string :=
  match s with
  | EmptyString => EmptyString
  | String c r => if is_space c then TrimLeft r else s
  end.

Fixpoint TrimRight (s : string) : string :=
  match s with
  | EmptyString => EmptyString
  | String c r =>
      match TrimRight r with
      | EmptyString => if is_space c then EmptyString else String c EmptyString
      | r' => String c r'
      end
  end.

(** [strings.TrimSpace], as it acts on ASCII text. *)
Definition TrimSpace (s : string) : string := TrimRight (TrimLeft s).

(** [strings.Split(s, sep)] for a one-byte separator (the service only
    splits on [" "]).  The result is never empty: a string without the
    separator comes back as a single part. *)
Fixpoint Split (s : string) (sep : ascii) : list string :=
  match s with
  | EmptyString => [EmptyString]
  | String c r =>
      if Ascii.eqb c sep then EmptyString :: Split r sep
      else match Split r sep with
           | [] => [String c EmptyString]
           | w :: ws => String c w :: ws
           end
  end.

End strings.

(** ** Errors *)

(** Go's [error] values that reach this package: its two sentinels, and
    whatever the vendored HTTP client reports. *)
Inductive error : Type :=
| ErrPingFailed
| ErrNotFound
| ErrClient (msg : string).

(** The outcome of a client call [(v, err)]: the code looks at [err] first
    and at [v] only when [err] is [nil].  The vendored client cannot name the
    sentinels of this package, so its errors are their messages, and reach
    the callers of the service as [ErrClient]. *)
Inductive result (A : Type) : Type :=
| Ok (v : A)
| Err (msg : string).
Arguments Ok {A} v.
Arguments Err {A} msg.

(** ** Provider types ([geckoTypes]) *)

Module CoinsListItem.
Record t : Type := mk { ID : string; Symbol : string; Name : string }.
End CoinsListItem.

Module CoinsMarketItem.
(** The fields of a market record that [getPaginatedCoinData] reads.  The
    four percent-change fields are [*float64]: [None] is [nil]. *)
Record t : Type := mk {
  ID : string;
  Symbol : string;
  Name : string;
  CurrentPrice : float;
  MarketCap : float;
  MarketCapRank : Z;
  TotalVolume : float;
  CirculatingSupply : float;
  TotalSupply : float;
  LastUpdated : string;
  PriceChangePercentage1hInCurrency : option float;
  PriceChangePercentage24hInCurrency : option float;
  PriceChangePercentage7dInCurrency : option float;
  PriceChangePercentage30dInCurrency : option float
}.
End CoinsMarketItem.

Module geckoTypes.
(** Modelled from the spec: the constants [PriceChangePercentageObject] and
    [OrderTypeObject.MarketCapDesc] of the vendored client are not among
    the sources; the spec fixes the windows at 1h, 24h, 7d, 30d and the
    order at descending market capitalisation. *)
Definition PCP1h : string := "1h".
Definition PCP24h : string := "24h".
Definition PCP7d : string := "7d".
Definition PCP30d : string := "30d".
Definition MarketCapDesc : string := "market_cap_desc".
End geckoTypes.

(** ** Canonical records ([apitypes]) *)

Module Coin.
(** Modelled from the spec: the declaration of [apitypes.Coin] is not among
    the sources; the fields are the ones [getPaginatedCoinData] fills, with
    the types of the spec's CoinRecord. *)
Record t : Type := mk {
  ID : string;
  Name : string;
  Symbol : string;
  Rank : Z;
  AvailableSupply : float;
  TotalSupply : float;
  MarketCap : float;
  Price : float;
  PercentChange1H : float;
  PercentChange24H : float;
  PercentChange7D : float;
  PercentChange30D : float;
  Volume24H : float;
  LastUpdated : string
}.

(** [apitypes.Coin{}] *)
Definition zero : t :=
  mk "" "" "" 0 0%float 0%float 0%float 0%float 0%float 0%float 0%float 0%float
     0%float "".
End Coin.

(** ** The formatting helpers ([pkg/api/util]) *)

(** The helper package is not among the sources: the service is verified for
    every implementation of it. *)
Record Util : Type := {
  NameToSlug : string -> string;
  FormatID : string -> string;
  FormatName : string -> string;
  FormatSymbol : string -> string;
  FormatRank : Z -> Z;
  FormatSupply : float -> float;
  FormatMarketCap : float -> float;
  FormatPrice : float -> string -> float;
  FormatPercentChange : float -> float;
  FormatVolume : float -> float;
  FormatLastUpdated : string -> string
}.

(** ** The HTTP client ([gecko.Client]) *)

Module Request.
(** The arguments of one [CoinsMarket] call. *)
Record t : Type := mk {
  vsCurrency : string;
  ids : list string;
  order : string;
  perPage : Z;
  page : Z;
  sparkline : bool;
  priceChangePercentage : list string
}.
End Request.

(** The price list of [SimplePrice], [map[string]map[string]float32], as the
    [range] loop walks it: coin identifiers in iteration order, each with its
    map from currency code to price.  A [float32] price is kept as the
    [float64] it converts to. *)
Definition priceList : Type := list (string * gmap string float).

Record Client : Type := {
  CoinsList : result (option (list CoinsListItem.t));
  CoinsMarket : Request.t -> result (option (list CoinsMarketItem.t));
  (** the vendored client returns a non-nil list exactly when the error is nil *)
  SimplePrice : list string -> list string -> result priceList
}.

(** ** The service *)

Record Service : Type := {
  client : Client;
  maxResultsPerPage : Z;
  maxPages : Z;
  cacheMap : gmap string string
}.

Definition set_cacheMap (s : Service) (m : gmap string string) : Service :=
  {| client := client s;
     maxResultsPerPage := maxResultsPerPage s;
     maxPages := maxPages s;
     cacheMap := m |}.

(** What the service does that the outside can see. *)
Inductive event : Type :=
| EvSleep (seconds : Z)            (* time.Sleep(seconds * time.Second) *)
| EvCoinsMarket (r : Request.t)    (* one market-page request *)
| EvSimplePrice (ids currencies : list string)   (* one price request *)
| EvSend (coins : list Coin.t)     (* ch <- coins *)
| EvClose.                         (* close(ch) *)

(** Go's [int] is 64 bits wide here; [+] wraps around. *)
Definition wrap_int (z : Z) : Z := ((z + 2 ^ 63) mod 2 ^ 64 - 2 ^ 63)%Z.

Section Service.

Context (util : Util).

(** *** The identifier-resolution cache *)

(** [if _, exists := cacheMap.Load(key); !exists { cacheMap.Store(key, id) }] *)
Definition store_absent (key id : string) (m : gmap string string)
  : gmap string string :=
  match m !! key with
  | Some _ => m
  | None => <[key := id]> m
  end.

(** The body of the catalog loop of [cacheCoinsIDList]; the state is the
    list [firstWords] and the cache map. *)
Definition cache_item (st : list (string * string) * gmap string string)
           (item : CoinsListItem.t)
  : list (string * string) * gmap string string :=
  let '(firstWords, m) := st in
  let keys := [ strings.ToLower (CoinsListItem.Name item);
                strings.ToLower (CoinsListItem.Symbol item);
                NameToSlug util (CoinsListItem.Name item) ] in
  let parts := strings.Split (strings.ToLower (CoinsListItem.Name item)) " " in
  let '(keys, firstWords) :=
    match parts with
    | p0 :: p1 :: _ =>
        if String.eqb p1 "coin" then (keys ++ [p0], firstWords)
        else (keys, firstWords ++ [(p0, CoinsListItem.ID item)])
    | _ => (keys, firstWords)
    end in
  (firstWords,
   fold_left (fun m key => store_absent key (CoinsListItem.ID item) m) keys m).

(** The loop over the collected first words. *)
Definition commit_first_words (firstWords : list (string * string))
           (m : gmap string string) : gmap string string :=
  fold_left (fun m parts => store_absent (fst parts) (snd parts) m) firstWords m.

Definition cacheCoinsIDList (s : Service) : Service * option error :=
  match CoinsList (client s) with
  | Err msg => (s, Some (ErrClient msg))
  | Ok None => (s, None)
  | Ok (Some list) =>
      let '(firstWords, m) := fold_left cache_item list ([], cacheMap s) in
      (set_cacheMap s (commit_first_words firstWords m), None)
  end.

(** [NewCoinGecko]: the error of [cacheCoinsIDList] is dropped. *)
Definition NewCoinGecko (c : Client) : Service :=
  let svc := {| client := c;
                maxResultsPerPage := 250;
                maxPages := 10;
                cacheMap := ∅ |} in
  fst (cacheCoinsIDList svc).

Definition coinNameToID (s : Service) (name : string) : string :=
  match cacheMap s !! strings.ToLower (strings.TrimSpace name) with
  | Some id => id
  | None => NameToSlug util name
  end.

(** *** The paginated acquisition pipeline *)

(** The request [getPaginatedCoinData] builds. *)
Definition market_request (s : Service) (convert : string) (offset : Z)
           (names : list string) : Request.t :=
  let page := wrap_int (offset + 1) in (* page starts at 1 *)
  let sparkline := false in
  let priceChangePercentage :=
    [geckoTypes.PCP1h; geckoTypes.PCP24h; geckoTypes.PCP7d; geckoTypes.PCP30d] in
  let order := geckoTypes.MarketCapDesc in
  let convertTo := strings.ToLower convert in
  let convertTo := if String.eqb convertTo "" then "usd" else convertTo in
  let ids := map (coinNameToID s) names in
  Request.mk convertTo ids order (maxResultsPerPage s) page sparkline
             priceChangePercentage.

(** The body of the loop over the provider's records: one record in, one
    canonical record out.  [convert] is the caller's string, as written. *)
Definition normalize (convert : string) (item : CoinsMarketItem.t) : Coin.t :=
  let price := CoinsMarketItem.CurrentPrice item in
  let percentChange1H :=
    match CoinsMarketItem.PriceChangePercentage1hInCurrency item with
    | Some v => v | None => 0%float end in
  let percentChange24H :=
    match CoinsMarketItem.PriceChangePercentage24hInCurrency item with
    | Some v => v | None => 0%float end in
  let percentChange7D :=
    match CoinsMarketItem.PriceChangePercentage7dInCurrency item with
    | Some v => v | None => 0%float end in
  let percentChange30D :=
    match CoinsMarketItem.PriceChangePercentage30dInCurrency item with
    | Some v => v | None => 0%float end in
  let availableSupply := CoinsMarketItem.CirculatingSupply item in
  let totalSupply := CoinsMarketItem.TotalSupply item in
  let totalSupply :=
    if PrimFloat.eqb totalSupply 0%float then availableSupply else totalSupply in
  {| Coin.ID := FormatID util (CoinsMarketItem.ID item);
     Coin.Name := FormatName util (CoinsMarketItem.Name item);
     Coin.Symbol := FormatSymbol util (CoinsMarketItem.Symbol item);
     Coin.Rank := FormatRank util (CoinsMarketItem.MarketCapRank item);
     Coin.AvailableSupply := FormatSupply util availableSupply;
     Coin.TotalSupply := FormatSupply util totalSupply;
     Coin.MarketCap := FormatMarketCap util (CoinsMarketItem.MarketCap item);
     Coin.Price := FormatPrice util price convert;
     Coin.PercentChange1H := FormatPercentChange util percentChange1H;
     Coin.PercentChange24H := FormatPercentChange util percentChange24H;
     Coin.PercentChange7D := FormatPercentChange util percentChange7D;
     Coin.PercentChange30D := FormatPercentChange util percentChange30D;
     Coin.Volume24H := FormatVolume util (CoinsMarketItem.TotalVolume item);
     Coin.LastUpdated := FormatLastUpdated util (CoinsMarketItem.LastUpdated item) |}.

(** [getPaginatedCoinData]: the request it sends, and what it returns.  A
    [nil] slice and an empty one are both [[]]. *)
Definition getPaginatedCoinData (s : Service) (convert : string) (offset : Z)
           (names : list string) : list event * (list Coin.t * option error) :=
  let r := market_request s convert offset names in
  ([EvCoinsMarket r],
   match CoinsMarket (client s) r with
   | Err msg => ([], Some (ErrClient msg))
   | Ok None => ([], None)
   | Ok (Some list) => (map (normalize convert) list, None)
   end).

(** The [for] loop of the goroutine of [GetAllCoinData], from index [i] on.
    [fuel] bounds the number of iterations; [page_loop_fuel] below shows
    that [maxPages - i] of it is all the loop ever uses.  [i++] runs only
    after [i < s.maxPages] held, so it cannot wrap. *)
Fixpoint page_loop (s : Service) (convert : string) (fuel : nat) (i : Z)
  : list event :=
  match fuel with
  | O => []
  | S fuel' =>
      if (i <? maxPages s)%Z then
        (if (0 <? i)%Z then [EvSleep 1] else []) ++
        let '(tr, (coins, err)) := getPaginatedCoinData s convert i [] in
        tr ++ match err with
              | Some _ => []                       (* return *)
              | None => EvSend coins :: page_loop s convert fuel' (i + 1)
              end
      else []
  end.

(** [GetAllCoinData]: the value returned to the caller, and the trace of
    the goroutine it starts ([defer close(ch)] ends every run).  The trace
    is the producer's side of the channel under a consumer that keeps
    receiving. *)
Definition GetAllCoinData (s : Service) (convert : string)
  : option error * list event :=
  (None, page_loop s convert (Z.to_nat (maxPages s)) 0 ++ [EvClose]).

Definition GetCoinData (s : Service) (name convert : string)
  : list event * (Coin.t * option error) :=
  let ret := Coin.zero in
  let ids := [name] in
  let '(tr, (coins, err)) := getPaginatedCoinData s convert 0 ids in
  match err with
  | Some e => (tr, (ret, Some e))
  | None =>
      (tr, (match coins with c :: _ => c | [] => ret end, None))
  end.

(** *** The price lookup *)

(** The [range] loop of [Price]: the first item with the currency. *)
Fixpoint price_scan (convert : string) (l : priceList) : option float :=
  match l with
  | [] => None
  | (_, item) :: rest =>
      match item !! convert with
      | Some p => Some p
      | None => price_scan convert rest
      end
  end.

Definition Price (s : Service) (name convert : string)
  : list event * (float * option error) :=
  let ids := [coinNameToID s name] in
  let convert := strings.ToLower convert in
  let currencies := [convert] in
  ([EvSimplePrice ids currencies],
   match SimplePrice (client s) ids currencies with
   | Err msg => (0%float, Some (ErrClient msg))
   | Ok priceList =>
       match price_scan convert priceList with
       | Some p => (FormatPrice util p convert, None)
       | None => (0%float, Some ErrNotFound)
       end
   end).

End Service.

(** ** A helper package to run the service on concrete inputs *)
Module spec_util.

Definition is_alnum (c : ascii) : bool :=
  let n := nat_of_ascii c in
  ((48 <=? n)%nat && (n <=? 57)%nat)
  || ((65 <=? n)%nat && (n <=? 90)%nat)
  || ((97 <=? n)%nat && (n <=? 122)%nat).

(** Modelled from the spec: [util.NameToSlug] is not among the sources; a
    slug is the name in lower case with every non-alphanumeric byte
    replaced by the separator ["-"]. *)
Fixpoint NameToSlug (name : string) : string :=
  match name with
  | EmptyString => EmptyString
  | String c r =>
      String (if is_alnum c then strings.lower_byte c else "-"%char) (NameToSlug r)
  end.

(** Modelled from the spec: [util.FormatRank] is not among the sources; a
    rank of [0] is unranked and becomes a large sentinel, any other rank
    passes through. *)
Definition FormatRank (rank : Z) : Z :=
  if (rank =? 0)%Z then (2 ^ 63 - 1)%Z else rank.

(** Modelled from the spec: the other formatters of [pkg/api/util] are not
    among the sources; they pass their value through (the rounding the spec
    mentions is left out). *)
Definition util : Util :=
  Build_Util NameToSlug
             (fun id => id) (fun name => name) (fun symbol => symbol)
             FormatRank
             (fun supply => supply) (fun cap => cap)
             (fun price _ => price)
             (fun change => change) (fun volume => volume)
             (fun updated => updated).

End spec_util.

(** ** Reading the code: definitions used to state the theorems *)

Section Reading.

Context (util : Util).

(** The three keys every catalog entry registers. *)
Definition explicit_keys (item : CoinsListItem.t) : list string :=
  [ strings.ToLower (CoinsListItem.Name item);
    strings.ToLower (CoinsListItem.Symbol item);
    NameToSlug util (CoinsListItem.Name item) ].

(** The keys [cache_item] stores for an entry during the catalog pass. *)
Definition item_keys (item : CoinsListItem.t) : list string :=
  match strings.Split (strings.ToLower (CoinsListItem.Name item)) " " with
  | p0 :: p1 :: _ =>
      if String.eqb p1 "coin" then explicit_keys item ++ [p0]
      else explicit_keys item
  | _ => explicit_keys item
  end.

(** The first-word alias [cache_item] collects for an entry, if any. *)
Definition item_first_words (item : CoinsListItem.t) : list (string * string) :=
  match strings.Split (strings.ToLower (CoinsListItem.Name item)) " " with
  | p0 :: p1 :: _ =>
      if String.eqb p1 "coin" then [] else [(p0, CoinsListItem.ID item)]
  | _ => []
  end.

(** Every (key, identifier) pair of the catalog pass, in the order the pass
    offers them to the table. *)
Definition immediate (catalog : list CoinsListItem.t) : list (string * string) :=
  flat_map (fun item => map (fun key => (key, CoinsListItem.ID item)) (item_keys item))
           catalog.

(** The collected first words after the catalog pass. *)
Definition deferred (catalog : list CoinsListItem.t) : list (string * string) :=
  flat_map item_first_words catalog.

(** The state of [cacheCoinsIDList] when the catalog loop ends, from an
    empty cache. *)
Definition catalog_pass (catalog : list CoinsListItem.t)
  : list (string * string) * gmap string string :=
  fold_left (cache_item util) catalog ([], ∅).

(** The page [GetAllCoinData] sends for loop index [i], when the fetch
    succeeds. *)
Definition page_batch (s : Service) (convert : string) (i : Z) : list Coin.t :=
  fst (snd (getPaginatedCoinData util s convert i [])).

(** The events of a successful iteration [i] of the page loop. *)
Definition page_events (s : Service) (convert : string) (i : Z) : list event :=
  (if (0 <? i)%Z then [EvSleep 1] else [])
    ++ [EvCoinsMarket (market_request util s convert i []);
        EvSend (page_batch s convert i)].

End Reading.

(** The first identifier offered for [key] in a list of (key, identifier)
    pairs. *)
Fixpoint first_claim (key : string) (l : list (string * string)) : option string :=
  match l with
  | [] => None
  | (k, id) :: rest => if String.eqb k key then Some id else first_claim key rest
  end.

(** The batches a trace puts on the channel, in order. *)
Fixpoint sent (tr : list event) : list (list Coin.t) :=
  match tr with
  | [] => []
  | EvSend coins :: rest => coins :: sent rest
  | _ :: rest => sent rest
  end.

(** The market requests of a trace, in order. *)
Fixpoint requested (tr : list event) : list Request.t :=
  match tr with
  | [] => []
  | EvCoinsMarket r :: rest => r :: requested rest
  | _ :: rest => requested rest
  end.

(** The pauses of a trace, in order. *)
Fixpoint sleeps (tr : list event) : list Z :=
  match tr with
  | [] => []
  | EvSleep d :: rest => d :: sleeps rest
  | _ :: rest => sleeps rest
  end.


(** The [n] pages [first], [first + 1], ... *)
Definition pages_from (first : Z) (n : nat) : list Z :=
  map (fun k => (first + Z.of_nat k)%Z) (seq 0 n).

(** ** The rest of the service *)

(** [strconv.Itoa] *)
Definition Itoa (i : Z) : string := NilZero.string_of_int (Z.to_int i).

Module Chart.
  (** What [CoinsIDMarketChart] and [GlobalCharts] return, as far as the
      service reads it: a series of points behind a pointer ([None] is
      [nil]), each point an array of two [float32], kept as the [float64]
      pair they convert to. *)
Record t : Type := mk { points : option (list (float * float)) }.
End Chart.

Module Global.
  (** What [Global] returns, as far as the service reads it: three maps from
      currency code to value, and two counters as [int(...)] converts
      them. *)
Record t : Type := mk {
  TotalMarketCap : gmap string float;
  TotalVolume : gmap string float;
  MarketCapPercentage : gmap string float;
  ActiveCryptocurrencies : Z;
  Markets : Z
}.
End Global.

Module CoinGraph.
  (** Modelled from the spec: the declaration of [apitypes.CoinGraph] is not
      among the sources; the fields are the four series
      [GetCoinGraphData] assigns, each a list of points. *)
Record t : Type := mk {
  MarketCapByAvailableSupply : list (list float);
  PriceBTC : list (list float);
  Price : list (list float);
  Volume : list (list float)
}.

Definition zero : t := mk [] [] [] [].
End CoinGraph.

Module MarketGraph.
  (** Modelled from the spec: the declaration of [apitypes.MarketGraph] is
      not among the sources; the fields are the two series
      [GetGlobalMarketGraphData] assigns. *)
Record t : Type := mk {
  MarketCapByAvailableSupply : list (list float);
  VolumeUSD : list (list float)
}.

Definition zero : t := mk [] [].
End MarketGraph.

Module GlobalMarketData.
  (** Modelled from the spec: the declaration of [apitypes.GlobalMarketData]
      is not among the sources; the fields are the six
      [GetGlobalMarketData] assigns. *)
Record t : Type := mk {
  TotalMarketCapUSD : float;
  Total24HVolumeUSD : float;
  BitcoinPercentageOfMarketCap : float;
  ActiveCurrencies : Z;
  ActiveAssets : Z;
  ActiveMarkets : Z
}.

Definition zero : t := mk 0%float 0%float 0%float 0 0 0.
End GlobalMarketData.

(** The endpoints of the vendored client beside the three of [Client].  As
    there, a successful call returns a non-nil value. *)
Record Endpoints : Type := {
  (** the error of [client.Ping], [None] for [nil] *)
  ClientPing : option string;
  (** identifier, currency, days *)
  CoinsIDMarketChart : string -> string -> string -> result Chart.t;
  (** currency, days *)
  GlobalCharts : string -> string -> result Chart.t;
  ClientGlobal : result Global.t
}.

Section Endpoints.

Context (util : Util).

(** [util.CalcDays] is not among the sources: the number of days between two
    timestamps, as an [int]. *)
Context (CalcDays : Z -> Z -> Z).

Definition Ping (e : Endpoints) : option error :=
  match ClientPing e with
  | Some msg => Some (ErrClient msg)
  | None => None
  end.

Definition GetCoinDataBatch (s : Service) (names : list string) (convert : string)
  : list event * (list Coin.t * option error) :=
  getPaginatedCoinData util s convert 0 names.

(** The loop over a series: each point becomes a two-element slice. *)
Definition series (points : option (list (float * float))) : list (list float) :=
  match points with
  | Some items => map (fun item => [fst item; snd item]) items
  | None => []
  end.

Definition GetCoinGraphData (e : Endpoints) (s : Service)
           (convert symbol name : string) (start end_ : Z)
  : CoinGraph.t * option error :=
  let ret := CoinGraph.zero in
  let days := Itoa (CalcDays start end_) in
  match CoinsIDMarketChart e (coinNameToID util s name) convert days with
  | Err msg => (ret, Some (ErrClient msg))
  | Ok chart =>
      let marketCap := [] in
      let priceBTC := [] in
      let volumeCoin := [] in
      let priceCoin := series (Chart.points chart) in
      ({| CoinGraph.MarketCapByAvailableSupply := marketCap;
          CoinGraph.PriceBTC := priceBTC;
          CoinGraph.Price := priceCoin;
          CoinGraph.Volume := volumeCoin |}, None)
  end.

Definition GetGlobalMarketGraphData (e : Endpoints) (convert : string)
           (start end_ : Z) : MarketGraph.t * option error :=
  let days := Itoa (CalcDays start end_) in
  let ret := MarketGraph.zero in
  let convertTo := strings.ToLower convert in
  let convertTo := if String.eqb convertTo "" then "usd" else convertTo in
  match GlobalCharts e convertTo days with
  | Err msg => (ret, Some (ErrClient msg))
  | Ok graphData =>
      let marketVolumeUSD := [] in
      let marketCapUSD := series (Chart.points graphData) in
      ({| MarketGraph.MarketCapByAvailableSupply := marketCapUSD;
          MarketGraph.VolumeUSD := marketVolumeUSD |}, None)
  end.

(** A missing key of a Go map reads as the zero value. *)
Definition GetGlobalMarketData (e : Endpoints) (convert : string)
  : GlobalMarketData.t * option error :=
  let convert := strings.ToLower convert in
  let ret := GlobalMarketData.zero in
  match ClientGlobal e with
  | Err msg => (ret, Some (ErrClient msg))
  | Ok market =>
      let totalMarketCap := default 0%float (Global.TotalMarketCap market !! convert) in
      let totalVolume := default 0%float (Global.TotalVolume market !! convert) in
      let btcDominance := default 0%float (Global.MarketCapPercentage market !! "btc") in
      ({| GlobalMarketData.TotalMarketCapUSD := totalMarketCap;
          GlobalMarketData.Total24HVolumeUSD := totalVolume;
          GlobalMarketData.BitcoinPercentageOfMarketCap := btcDominance;
          GlobalMarketData.ActiveCurrencies := Global.ActiveCryptocurrencies market;
          GlobalMarketData.ActiveAssets := 0;
          GlobalMarketData.ActiveMarkets := Global.Markets market |}, None)
  end.

Definition CoinLink (s : Service) (name : string) : string :=
  let ID := coinNameToID util s name in
  String.append "https://www.coingecko.com/en/coins/" ID.

End Endpoints.

Definition SupportedCurrencies : list string :=
  [ "AED"; "ARS"; "AUD"; "BDT"; "BHD"; "BMD"; "BNB"; "BRL"; "BTC"; "CAD";
    "CHF"; "CLP"; "CNY"; "CZK"; "DKK"; "EOS"; "ETH"; "EUR"; "GBP"; "HKD";
    "HUF"; "IDR"; "ILS"; "INR"; "JPY"; "KRW"; "KWD"; "LKR"; "MMK"; "MXN";
    "MYR"; "NOK"; "NZD"; "PHP"; "PKR"; "PLN"; "RUB"; "SAR"; "SEK"; "SGD";
    "THB"; "TRY"; "TWD"; "UAH"; "USD"; "VEF"; "VND"; "XAG"; "XDR"; "ZAR" ].

(** A currency code of three upper-case letters. *)
Definition is_code (c : string) : bool :=
  match c with
  | String x (String y (String z EmptyString)) =>
      strings.is_upper x && strings.is_upper y && strings.is_upper z
  | _ => false
  end.

(** ** Package [cointop]: helpers, paging, cache cleaning *)
Module cointop.

(** [Slugify] *)
Definition Slugify (s : string) : string :=
  strings.TrimSpace (strings.ToLower s).

(** [TruncateString]: [len] counts bytes, and the slice expression
    [value[0:maxLen-3]] panics ([None]) when its bound is negative or beyond
    the string. *)
Definition TruncateString (value : string) (maxLen : Z) : option string :=
  let dots := "..." in
  if (maxLen <? Z.of_nat (String.length value))%Z then
    let hi := wrap_int (maxLen - 3) in
    if (0 <=? hi)%Z && (hi <=? Z.of_nat (String.length value))%Z
    then Some (String.append (substring 0 (Z.to_nat hi) value) dots)
    else None
  else Some value.

Definition is_digit (c : ascii) : bool :=
  let n := nat_of_ascii c in (48 <=? n)%nat && (n <=? 57)%nat.

(** The longest run of digits at the head of a string. *)
Fixpoint digits (s : string) : string :=
  match s with
  | EmptyString => EmptyString
  | String c r => if is_digit c then String c (digits r) else EmptyString
  end.

(** What follows the digits at the head of a string. *)
Fixpoint after_digits (s : string) : string :=
  match s with
  | EmptyString => EmptyString
  | String c r => if is_digit c then after_digits r else s
  end.

(** The match of [(\d+\.\d+|\.\d+|\d+)] that starts at the head of [s],
    if there is one: the alternatives are tried in order, each [\d+] takes
    as many digits as there are. *)
Definition match_here (s : string) : option string :=
  match s with
  | EmptyString => None
  | String c r =>
      if is_digit c then
        match after_digits s with
        | String "." r' =>
            match digits r' with
            | EmptyString => Some (digits s)
            | f => Some (String.append (digits s) (String "." f))
            end
        | _ => Some (digits s)
        end
      else if Ascii.eqb c "." then
        match digits r with
        | EmptyString => None
        | f => Some (String "." f)
        end
      else None
  end.

(** [re.FindStringSubmatch(input)[0]]: the leftmost match. *)
Fixpoint find_match (s : string) : option string :=
  match match_here s with
  | Some m => Some m
  | None =>
      match s with
      | EmptyString => None
      | String _ r => find_match r
      end
  end.

(** [normalizeFloatString] *)
Definition normalizeFloatString (input : string) : string :=
  match find_match input with
  | Some m => m
  | None => ""
  end.

(** The part of [State] that paging reads and writes. *)
Record PageState : Type := { page : Z; perPage : Z }.

(** [SetPage]; [listCount] is what [GetListCount], which is not among the
    sources, returns.  The product is an [int] and wraps around. *)
Definition SetPage (listCount : Z) (st : PageState) (p : Z) : PageState * Z :=
  if (wrap_int (p * perPage st) <? listCount)%Z && (0 <=? p)%Z
  then ({| page := p; perPage := perPage st |}, p)
  else (st, page st).

(** [TotalPages]: integer division truncates, and panics ([None]) on a zero
    divisor. *)
Definition TotalPages (listCount : Z) (st : PageState) : option Z :=
  if (perPage st =? 0)%Z then None
  else Some (wrap_int (Z.quot listCount (perPage st))).

(** [GetCoinRowIndex] and [GetGlobalCoinIndex]: the list holds pointers,
    compared by address. *)
Fixpoint coin_index_from (i : Z) (coins : list positive) (coin : positive) : Z :=
  match coins with
  | [] => 0
  | v :: rest => if Pos.eqb v coin then i else coin_index_from (i + 1) rest coin
  end.

Definition GetCoinRowIndex (coins : list positive) (coin : positive) : Z :=
  coin_index_from 0 coins coin.

(** The file system as [Clean] meets it. *)
Record FS : Type := {
  (** [os.IsNotExist] of the error of [os.Stat] *)
  stat_not_exist : string -> bool;
  (** the names of the entries of a directory, or the error of [ioutil.ReadDir] *)
  ReadDir : string -> result (list string);
  (** the error of [os.Remove], [None] for [nil] *)
  Remove : string -> option string
}.

Inductive fs_event : Type :=
| FsRemove (file : string)      (* os.Remove(file) *)
| FsPrint (text : string).      (* fmt.Printf / fmt.Println *)

Record CleanConfig : Type := { Log : bool; CacheDir : string }.

Section Clean.

(** [DefaultCacheDir] and [pathutil.NormalizePath] are not among the
    sources. *)
Context (DefaultCacheDir : string) (NormalizePath : string -> string).

(** The loop over the directory entries: the events, whether a file was
    removed, and the error that ended the loop, if any. *)
Fixpoint clean_files (fsys : FS) (log : bool) (cacheDir : string)
         (files : list string) (cacheCleaned : bool)
  : list fs_event * (bool * option string) :=
  match files with
  | [] => ([], (cacheCleaned, None))
  | name :: rest =>
      if String.prefix "fcache." name then
        let file := String.append cacheDir (String.append "/" name) in
        let printed :=
          if log then [FsPrint (String.append "removing "
                                  (String.append file (String "010" "")))]
          else [] in
        match Remove fsys file with
        | Some msg => (printed ++ [FsRemove file], (cacheCleaned, Some msg))
        | None =>
            let '(tr, out) := clean_files fsys log cacheDir rest true in
            (printed ++ FsRemove file :: tr, out)
        end
      else clean_files fsys log cacheDir rest cacheCleaned
  end.

(** [Clean]; a [nil] configuration is [None], and an error is the message
    of the [os] error returned. *)
Definition Clean (fsys : FS) (config : option CleanConfig)
  : list fs_event * option string :=
  let config := default {| Log := false; CacheDir := "" |} config in
  let cacheDir := DefaultCacheDir in
  let cacheDir :=
    if String.eqb (CacheDir config) "" then cacheDir
    else NormalizePath (CacheDir config) in
  let '(tr, (cacheCleaned, err)) :=
    if negb (stat_not_exist fsys cacheDir) then
      match ReadDir fsys cacheDir with
      | Err msg => ([], (false, Some msg))
      | Ok files => clean_files fsys (Log config) cacheDir files false
      end
    else ([], (false, None)) in
  match err with
  | Some e => (tr, Some e)
  | None =>
      (tr ++ (if Log config && cacheCleaned
              then [FsPrint (String.append "cointop cache has been cleaned"
                               (String "010" ""))]
              else []),
       None)
  end.

End Clean.

End cointop.

(** ** Reading package [cointop] *)
Module cointop_reading.

(** Strings that do not start with white space. *)
Definition no_lead (s : string) : Prop :=
  match s with
  | EmptyString => True
  | String c _ => strings.is_space c = false
  end.

Fixpoint has_digit (s : string) : bool :=
  match s with
  | EmptyString => false
  | String c r => cointop.is_digit c || has_digit r
  end.

Fixpoint all_digits (s : string) : bool :=
  match s with
  | EmptyString => true
  | String c r => cointop.is_digit c && all_digits r
  end.

(** Digits, or digits (possibly none) with a point and digits after it. *)
Definition float_text (m : string) : Prop :=
  ∃ d f : string,
    all_digits d = true ∧ all_digits f = true
    ∧ ((m = d ∧ d ≠ "") ∨ (m = String.append d (String "." f) ∧ f ≠ "")).

(** The cache directory [Clean] works on. *)
Definition cache_dir (DefaultCacheDir : string) (NormalizePath : string -> string)
           (config : option cointop.CleanConfig) : string :=
  match config with
  | Some cfg =>
      if String.eqb (cointop.CacheDir cfg) "" then DefaultCacheDir
      else NormalizePath (cointop.CacheDir cfg)
  | None => DefaultCacheDir
  end.

(** The path [Clean] builds for an entry of the directory. *)
Definition cache_file (dir name : string) : string :=
  String.append dir (String.append "/" name).

(** The files a trace removes, or tries to, in order. *)
Fixpoint removed (tr : list cointop.fs_event) : list string :=
  match tr with
  | [] => []
  | cointop.FsRemove file :: rest => file :: removed rest
  | cointop.FsPrint _ :: rest => removed rest
  end.

(** What a trace prints, in order. *)
Fixpoint printed (tr : list cointop.fs_event) : list string :=
  match tr with
  | [] => []
  | cointop.FsPrint text :: rest => text :: printed rest
  | cointop.FsRemove _ :: rest => printed rest
  end.

(** A directory of three entries, and file systems over it. *)
Definition entries : list string := ["config.toml"; "fcache.coins"; "fcache.market"].

Definition healthy : cointop.FS :=
  {| cointop.stat_not_exist := fun _ => false;
     cointop.ReadDir := fun _ => Ok entries;
     cointop.Remove := fun _ => None |}.

Definition read_only : cointop.FS :=
  {| cointop.stat_not_exist := fun _ => false;
     cointop.ReadDir := fun _ => Ok entries;
     cointop.Remove := fun _ => Some "permission denied" |}.

Definition missing : cointop.FS :=
  {| cointop.stat_not_exist := fun _ => true;
     cointop.ReadDir := fun _ => Err "no such directory";
     cointop.Remove := fun _ => None |}.

End cointop_reading.

(** ** The currency code of a request *)



(** Text on which Go's [strings.ToLower] and [strings.TrimSpace] act byte by
    byte, as modelled in [strings]: every byte is below 0x80. *)
Fixpoint is_ascii (s : string) : bool :=
  match s with
  | EmptyString => true
  | String c r => (nat_of_ascii c <? 128)%nat && is_ascii r
  end.

(** ** Catalogs and providers to run the service on *)
Module Examples.

(** A provider that serves a catalog and nothing else. *)
Definition catalog_only (catalog : list CoinsListItem.t) : Client :=
  {| CoinsList := Ok (Some catalog);
     CoinsMarket := fun _ => Err "offline";
     SimplePrice := fun _ _ => Err "offline" |}.

(** Two entries that both offer the key ["btc"]. *)
Definition collision : list CoinsListItem.t :=
  [ CoinsListItem.mk "bitcoin" "BTC" "Bitcoin";
    CoinsListItem.mk "batcoin" "btc" "Batcoin" ].

(** A name that ends in a space, ahead of the entry named like its first
    word. *)
Definition padded : list CoinsListItem.t :=
  [ CoinsListItem.mk "foo-token" "FT" "Foo ";
    CoinsListItem.mk "foo" "FOO" "Foo" ].

Definition bitcoin_cash_first : list CoinsListItem.t :=
  [ CoinsListItem.mk "bitcoin-cash" "BCH" "Bitcoin Cash";
    CoinsListItem.mk "bitcoin" "BTC" "Bitcoin" ].

Definition simple_coin : list CoinsListItem.t :=
  [ CoinsListItem.mk "simple-coin" "SMPL" "Simple Coin" ].

(** One market record. *)
Definition market_item (id : string) (price total circulating : float)
           (change7d : option float) : CoinsMarketItem.t :=
  {| CoinsMarketItem.ID := id;
     CoinsMarketItem.Symbol := id;
     CoinsMarketItem.Name := id;
     CoinsMarketItem.CurrentPrice := price;
     CoinsMarketItem.MarketCap := 0%float;
     CoinsMarketItem.MarketCapRank := 1;
     CoinsMarketItem.TotalVolume := 0%float;
     CoinsMarketItem.CirculatingSupply := circulating;
     CoinsMarketItem.TotalSupply := total;
     CoinsMarketItem.LastUpdated := "2020-01-01T00:00:00.000Z";
     CoinsMarketItem.PriceChangePercentage1hInCurrency := Some 1%float;
     CoinsMarketItem.PriceChangePercentage24hInCurrency := Some 2%float;
     CoinsMarketItem.PriceChangePercentage7dInCurrency := change7d;
     CoinsMarketItem.PriceChangePercentage30dInCurrency := Some 4%float |}.

(** A page of one record: no total supply, no 7-day change. *)
Definition one_page : list CoinsMarketItem.t :=
  [market_item "bitcoin" 1.125%float 0%float 1000%float None].

(** A provider with one record on every page, which fails on the page
    [fail_at]. *)
Definition pages (fail_at : Z) : Client :=
  {| CoinsList := Ok (Some bitcoin_cash_first);
     CoinsMarket := fun r =>
       if (Request.page r =? fail_at)%Z then Err "timeout"
       else Ok (Some one_page);
     SimplePrice := fun _ _ => Err "offline" |}.

(** A provider that answers every market request with [answer]. *)
Definition market (answer : result (option (list CoinsMarketItem.t))) : Client :=
  {| CoinsList := Ok (Some bitcoin_cash_first);
     CoinsMarket := fun _ => answer;
     SimplePrice := fun _ _ => Err "offline" |}.

(** A provider that answers every price request with [answer]. *)
Definition prices (answer : result priceList) : Client :=
  {| CoinsList := Ok (Some bitcoin_cash_first);
     CoinsMarket := fun _ => Err "offline";
     SimplePrice := fun _ _ => answer |}.

Definition price_list : priceList :=
  [ ("bitcoin-cash", {[ "eur" := 200%float ]});
    ("bitcoin", {[ "usd" := 9000.5%float ]}) ].

End Examples.

(** ** More providers and inputs to run the code on *)
Module Samples.

(** A provider whose catalog request fails. *)
Definition offline : Client :=
  {| CoinsList := Err "offline";
     CoinsMarket := fun _ => Err "offline";
     SimplePrice := fun _ _ => Err "offline" |}.

(** A service that already holds a binding for ["foo"]. *)
Definition primed : Service :=
  {| client := Examples.catalog_only Examples.padded;
     maxResultsPerPage := 250;
     maxPages := 10;
     cacheMap := {[ "foo" := "old-foo" ]} |}.

Definition bitcoin_cash_alone : list CoinsListItem.t :=
  [ CoinsListItem.mk "bitcoin-cash" "BCH" "Bitcoin Cash" ].

(** A provider that answers the first two pages only. *)
Definition two_pages : Client := Examples.pages 3.

Definition global : Global.t :=
  {| Global.TotalMarketCap := {[ "usd" := 250000%float ]};
     Global.TotalVolume := {[ "usd" := 9000%float ]};
     Global.MarketCapPercentage := {[ "btc" := 62.5%float ]};
     Global.ActiveCryptocurrencies := 6000;
     Global.Markets := 500 |}.

Definition endpoints : Endpoints :=
  {| ClientPing := None;
     CoinsIDMarketChart := fun id _ _ =>
       if String.eqb id "bitcoin"
       then Ok (Chart.mk (Some [(1%float, 9000%float); (2%float, 9100%float)]))
       else Err "not found";
     GlobalCharts := fun currency _ =>
       if String.eqb currency "usd"
       then Ok (Chart.mk (Some [(1%float, 250000%float)]))
       else Err "unsupported";
     ClientGlobal := Ok global |}.

(** Seconds to whole days, for running [GetCoinGraphData]. *)
Definition CalcDays (start end_ : Z) : Z := Z.quot (end_ - start) 86400.

End Samples.

(** * Facts about the model *)

(** ** Strings *)

Lemma lower_byte_idem (c : ascii) :
  strings.lower_byte (strings.lower_byte c) = strings.lower_byte c.
Proof.
  destruct c as [[] [] [] [] [] [] [] []]; reflexivity.
Qed.

Lemma ToLower_idem (s : string) :
  strings.ToLower (strings.ToLower s) = strings.ToLower s.
Proof.
  induction s as [|c r IH]; simpl; [reflexivity|].
  by rewrite lower_byte_idem, IH.
Qed.

(** A lower-cased name or symbol without surrounding white space is already
    in the form the resolver looks up. *)
Lemma trimmed_lower_normalised (s : string) :
  strings.TrimSpace (strings.ToLower s) = strings.ToLower s →
  strings.ToLower (strings.TrimSpace (strings.ToLower s)) = strings.ToLower s.
Proof. intros ->. apply ToLower_idem. Qed.

(** ** First-seen precedence of the table *)

Lemma store_absent_lookup (key id k : string) (m : gmap string string) :
  store_absent key id m !! k =
  match m !! k with
  | Some v => Some v
  | None => if String.eqb key k then Some id else None
  end.
Proof.
  unfold store_absent.
  destruct (String.eqb_spec key k) as [->|Hne].
  - destruct (m !! k) eqn:E; [by rewrite E|]. by rewrite lookup_insert_eq.
  - destruct (m !! key) eqn:E.
    + by destruct (m !! k).
    + rewrite lookup_insert_ne by done. by destruct (m !! k).
Qed.

Lemma commit_first_words_lookup (l : list (string * string))
      (m : gmap string string) (k : string) :
  commit_first_words l m !! k =
  match m !! k with
  | Some v => Some v
  | None => first_claim k l
  end.
Proof.
  unfold commit_first_words.
  revert m. induction l as [|[k' id] l IH]; intros m; simpl.
  - by destruct (m !! k).
  - rewrite IH, store_absent_lookup.
    destruct (m !! k); [done|]. by destruct (String.eqb k' k).
Qed.

Lemma first_claim_app (k : string) (l1 l2 : list (string * string)) :
  first_claim k (l1 ++ l2) =
  match first_claim k l1 with
  | Some v => Some v
  | None => first_claim k l2
  end.
Proof.
  induction l1 as [|[k' id] l1 IH]; simpl; [done|].
  by destruct (String.eqb k' k).
Qed.

Lemma first_claim_keys_in (k id : string) (keys : list string) :
  k ∈ keys → first_claim k (map (fun key => (key, id)) keys) = Some id.
Proof.
  induction keys as [|k' keys IH]; simpl; intros Hin.
  - by apply elem_of_nil in Hin.
  - destruct (String.eqb_spec k' k) as [|Hne]; [done|].
    apply elem_of_cons in Hin as [->|Hin]; [done|]. by apply IH.
Qed.

Lemma first_claim_keys_out (k id : string) (keys : list string) :
  k ∉ keys → first_claim k (map (fun key => (key, id)) keys) = None.
Proof.
  induction keys as [|k' keys IH]; simpl; intros Hout; [done|].
  apply not_elem_of_cons in Hout as [Hne Hout].
  destruct (String.eqb_spec k' k) as [->|_]; [done|]. by apply IH.
Qed.

Lemma first_claim_Some_in (k id : string) (l : list (string * string)) :
  first_claim k l = Some id → (k, id) ∈ l.
Proof.
  induction l as [|[k' id'] l IH]; simpl; [done|].
  destruct (String.eqb_spec k' k) as [->|_].
  - intros [= ->]. apply elem_of_cons. by left.
  - intros H. apply elem_of_cons. right. by apply IH.
Qed.

Section ResolutionFacts.

Context (util : Util).

Lemma explicit_keys_item_keys (item : CoinsListItem.t) (k : string) :
  k ∈ explicit_keys util item → k ∈ item_keys util item.
Proof.
  intros Hin. unfold item_keys.
  destruct (strings.Split _ _) as [|p0 [|p1 rest]]; try done.
  destruct (String.eqb p1 "coin"); [|done].
  apply elem_of_app. by left.
Qed.

(** The loop body, read as "collect the alias, offer the keys". *)
Lemma cache_item_eq (fw : list (string * string)) (m : gmap string string)
      (item : CoinsListItem.t) :
  cache_item util (fw, m) item =
  (fw ++ item_first_words item,
   commit_first_words
     (map (fun key => (key, CoinsListItem.ID item)) (item_keys util item)) m).
Proof.
  unfold cache_item, item_keys, item_first_words, explicit_keys,
    commit_first_words.
  destruct (strings.Split _ _) as [|p0 [|p1 rest]];
    try (rewrite app_nil_r; reflexivity).
  destruct (String.eqb p1 "coin"); simpl; by rewrite ?app_nil_r.
Qed.

Lemma commit_first_words_app (l1 l2 : list (string * string))
      (m : gmap string string) :
  commit_first_words (l1 ++ l2) m =
  commit_first_words l2 (commit_first_words l1 m).
Proof. unfold commit_first_words. apply fold_left_app. Qed.

Lemma fold_cache_item (catalog : list CoinsListItem.t)
      (fw : list (string * string)) (m : gmap string string) :
  fold_left (cache_item util) catalog (fw, m) =
  (fw ++ deferred catalog, commit_first_words (immediate util catalog) m).
Proof.
  revert fw m. induction catalog as [|item catalog IH]; intros fw m.
  - simpl. by rewrite app_nil_r.
  - cbn [fold_left]. rewrite cache_item_eq, IH.
    unfold deferred, immediate. cbn [flat_map].
    by rewrite commit_first_words_app, <- app_assoc.
Qed.

Lemma catalog_pass_eq (catalog : list CoinsListItem.t) :
  catalog_pass util catalog =
  (deferred catalog, commit_first_words (immediate util catalog) ∅).
Proof. unfold catalog_pass. by rewrite fold_cache_item. Qed.

(** The table of a fresh service is the catalog pass with the collected
    first words committed on top. *)
Lemma NewCoinGecko_cacheMap (c : Client) (catalog : list CoinsListItem.t) :
  CoinsList c = Ok (Some catalog) →
  cacheMap (NewCoinGecko util c) =
  commit_first_words (fst (catalog_pass util catalog))
                     (snd (catalog_pass util catalog)).
Proof.
  intros Hc. unfold NewCoinGecko, cacheCoinsIDList, catalog_pass. simpl.
  rewrite Hc. by destruct (fold_left _ _ _).
Qed.

Lemma pass_lookup (catalog : list CoinsListItem.t) (k : string) :
  snd (catalog_pass util catalog) !! k = first_claim k (immediate util catalog).
Proof.
  rewrite catalog_pass_eq. simpl.
  by rewrite commit_first_words_lookup, lookup_empty.
Qed.

Lemma table_lookup (c : Client) (catalog : list CoinsListItem.t) (k : string) :
  CoinsList c = Ok (Some catalog) →
  cacheMap (NewCoinGecko util c) !! k =
  match snd (catalog_pass util catalog) !! k with
  | Some id => Some id
  | None => first_claim k (fst (catalog_pass util catalog))
  end.
Proof.
  intros Hc. rewrite (NewCoinGecko_cacheMap c catalog Hc).
  apply commit_first_words_lookup.
Qed.

(** The first entry that lists [k] among its keys owns [k]. *)
Lemma first_claim_immediate (catalog : list CoinsListItem.t) (j : nat)
      (w : CoinsListItem.t) (k : string) :
  catalog !! j = Some w →
  k ∈ item_keys util w →
  Forall (fun e => k ∉ item_keys util e) (take j catalog) →
  first_claim k (immediate util catalog) = Some (CoinsListItem.ID w).
Proof.
  revert j. induction catalog as [|e catalog IH]; intros j Hj Hin Hpre.
  - done.
  - unfold immediate. simpl. rewrite first_claim_app.
    destruct j as [|j]; simpl in *.
    + injection Hj as ->. by rewrite first_claim_keys_in.
    + apply Forall_cons in Hpre as [Hout Hpre].
      rewrite first_claim_keys_out by done. by apply (IH j).
Qed.

Lemma first_claim_immediate_in (catalog : list CoinsListItem.t) (k id : string) :
  first_claim k (immediate util catalog) = Some id →
  ∃ w, w ∈ catalog ∧ k ∈ item_keys util w ∧ CoinsListItem.ID w = id.
Proof.
  intros H. apply first_claim_Some_in in H.
  unfold immediate in H. apply list_elem_of_In, in_flat_map in H.
  destruct H as (w & Hw & H). apply in_map_iff in H as (k' & [= <- <-] & Hk).
  exists w. by rewrite !list_elem_of_In.
Qed.

End ResolutionFacts.

Section ResolutionTheorems.

Context (util : Util).

Lemma first_claim_immediate_some (catalog : list CoinsListItem.t)
      (item : CoinsListItem.t) (k : string) :
  item ∈ catalog → k ∈ item_keys util item →
  is_Some (first_claim k (immediate util catalog)).
Proof.
  induction catalog as [|e catalog IH]; intros Hin Hk.
  - by apply elem_of_nil in Hin.
  - unfold immediate. cbn [flat_map]. rewrite first_claim_app.
    destruct (first_claim k (map _ (item_keys util e))) eqn:E; [by eexists|].
    apply elem_of_cons in Hin as [->|Hin].
    + by rewrite first_claim_keys_in in E.
    + by apply IH.
Qed.

Lemma item_keys_coin (item : CoinsListItem.t) (p0 : string) (rest : list string) :
  strings.Split (strings.ToLower (CoinsListItem.Name item)) " "
    = p0 :: "coin" :: rest →
  p0 ∈ item_keys util item.
Proof.
  intros Hs. unfold item_keys. rewrite Hs. simpl.
  rewrite !elem_of_cons. auto.
Qed.

Lemma item_keys_inv (item : CoinsListItem.t) (k : string) :
  k ∈ item_keys util item →
  k ∈ explicit_keys util item
  ∨ ∃ rest, strings.Split (strings.ToLower (CoinsListItem.Name item)) " "
            = k :: "coin" :: rest.
Proof.
  unfold item_keys.
  destruct (strings.Split _ _) as [|p0 [|p1 rest]]; auto.
  destruct (String.eqb_spec p1 "coin") as [->|_]; auto.
  intros [H|H]%elem_of_app; auto.
  apply list_elem_of_singleton in H as ->. eauto.
Qed.

(** C2 (as amended). For every catalog and every entry [e] of it, and every
    key [k] among the entry's lower-cased name, lower-cased symbol and name
    slug that the resolver's own normalisation leaves as it is
    ([ToLower (TrimSpace k) = k]): resolving [k] on the freshly built
    service returns the identifier of [e] when no earlier entry stored
    [k], and otherwise the identifier of the first entry that stored it. *)
Theorem resolve_first_seen (c : Client) (catalog : list CoinsListItem.t)
        (i : nat) (e : CoinsListItem.t) (k : string) :
  CoinsList c = Ok (Some catalog) →
  catalog !! i = Some e →
  k ∈ explicit_keys util e →
  strings.ToLower (strings.TrimSpace k) = k →
  (Forall (fun e' => k ∉ item_keys util e') (take i catalog) →
   coinNameToID util (NewCoinGecko util c) k = CoinsListItem.ID e)
  ∧ (∀ (j : nat) (w : CoinsListItem.t),
       (j < i)%nat → catalog !! j = Some w → k ∈ item_keys util w →
       Forall (fun e' => k ∉ item_keys util e') (take j catalog) →
       coinNameToID util (NewCoinGecko util c) k = CoinsListItem.ID w).
Proof.
  intros Hc Hi Hk Hnorm.
  assert (Hown : ∀ (j : nat) (w : CoinsListItem.t),
             catalog !! j = Some w → k ∈ item_keys util w →
             Forall (fun e' => k ∉ item_keys util e') (take j catalog) →
             coinNameToID util (NewCoinGecko util c) k = CoinsListItem.ID w).
  { intros j w Hj Hw Hpre. unfold coinNameToID.
    rewrite Hnorm, (table_lookup util c catalog k Hc), pass_lookup.
    by rewrite (first_claim_immediate util catalog j w k Hj Hw Hpre). }
  split.
  - intros Hpre. apply (Hown i e Hi); [|done].
    by apply explicit_keys_item_keys.
  - intros j w _ Hj Hw Hpre. by apply (Hown j w).
Qed.

(** C3. During the catalog pass the first word of a multi-word name whose
    second word is not ["coin"] is collected and not stored (every key the
    pass stores is an explicit key of an entry or the first word of a name
    whose second word is ["coin"]); after the pass a collected first word
    is stored only where the table has no value yet, so a key that is the
    lower-cased name, the lower-cased symbol or the slug of any entry keeps
    the identifier the pass gave it, whatever the order of the catalog; a
    first word followed by ["coin"] is stored during the pass; and with
    ["Bitcoin Cash"] ahead of ["Bitcoin"], ["bitcoin"] resolves to the
    identifier of ["Bitcoin"]. *)
Theorem first_word_alias_deferred (c : Client) (catalog : list CoinsListItem.t) :
  CoinsList c = Ok (Some catalog) →
  (* collected, not stored *)
  (∀ (item : CoinsListItem.t) (p0 p1 : string) (rest : list string),
     item ∈ catalog →
     strings.Split (strings.ToLower (CoinsListItem.Name item)) " "
       = p0 :: p1 :: rest →
     p1 ≠ "coin" →
     (p0, CoinsListItem.ID item) ∈ fst (catalog_pass util catalog))
  ∧ (∀ k id : string,
       snd (catalog_pass util catalog) !! k = Some id →
       ∃ w, w ∈ catalog ∧ CoinsListItem.ID w = id
            ∧ (k ∈ explicit_keys util w
               ∨ ∃ rest, strings.Split (strings.ToLower (CoinsListItem.Name w)) " "
                         = k :: "coin" :: rest))
  (* stored after the pass, only where still absent *)
  ∧ (∀ k : string,
       cacheMap (NewCoinGecko util c) !! k =
       match snd (catalog_pass util catalog) !! k with
       | Some id => Some id
       | None => first_claim k (fst (catalog_pass util catalog))
       end)
  (* explicit keys win over first-word aliases *)
  ∧ (∀ (item : CoinsListItem.t) (k : string),
       item ∈ catalog → k ∈ explicit_keys util item →
       is_Some (snd (catalog_pass util catalog) !! k)
       ∧ cacheMap (NewCoinGecko util c) !! k
         = snd (catalog_pass util catalog) !! k)
  (* second word "coin": stored during the pass *)
  ∧ (∀ (i : nat) (item : CoinsListItem.t) (p0 : string) (rest : list string),
       catalog !! i = Some item →
       strings.Split (strings.ToLower (CoinsListItem.Name item)) " "
         = p0 :: "coin" :: rest →
       is_Some (snd (catalog_pass util catalog) !! p0)
       ∧ (Forall (fun e => p0 ∉ item_keys util e) (take i catalog) →
          snd (catalog_pass util catalog) !! p0 = Some (CoinsListItem.ID item)))
  (* the catalog of the specification *)
  ∧ (∀ A B sa sb : string,
       catalog = [ CoinsListItem.mk A sa "Bitcoin Cash";
                   CoinsListItem.mk B sb "Bitcoin" ] →
       strings.ToLower sa ≠ "bitcoin" →
       NameToSlug util "Bitcoin Cash" ≠ "bitcoin" →
       coinNameToID util (NewCoinGecko util c) "bitcoin" = B).
Proof.
  intros Hc. repeat split.
  - intros item p0 p1 rest Hin Hs Hne.
    rewrite catalog_pass_eq. simpl. unfold deferred.
    apply list_elem_of_In, in_flat_map. exists item. split.
    + by apply list_elem_of_In.
    + unfold item_first_words. rewrite Hs.
      destruct (String.eqb_spec p1 "coin"); [done|]. by left.
  - intros k id Hk. rewrite pass_lookup in Hk.
    apply first_claim_immediate_in in Hk as (w & Hw & Hkw & Hid).
    exists w. repeat split; [done..|]. by apply item_keys_inv.
  - intros k. by apply table_lookup.
  - rewrite pass_lookup. apply (first_claim_immediate_some catalog item); [done|].
    by apply explicit_keys_item_keys.
  - rewrite (table_lookup util c catalog k Hc), pass_lookup.
    destruct (first_claim_immediate_some catalog item k) as [id ->]; [done| |done].
    by apply explicit_keys_item_keys.
  - rewrite pass_lookup. apply (first_claim_immediate_some catalog item).
    + by eapply list_elem_of_lookup_2.
    + by eapply item_keys_coin.
  - intros Hpre. rewrite pass_lookup.
    apply (first_claim_immediate util catalog i item); [done| |done].
    by eapply item_keys_coin.
  - intros A B sa sb -> Hsa Hslug. unfold coinNameToID.
    change (strings.ToLower (strings.TrimSpace "bitcoin")) with "bitcoin".
    rewrite (table_lookup util c _ "bitcoin" Hc), pass_lookup.
    rewrite (first_claim_immediate util _ 1 (CoinsListItem.mk B sb "Bitcoin")
               "bitcoin"); [done|done| |].
    + unfold item_keys, explicit_keys. simpl. apply elem_of_cons. by left.
    + simpl. apply Forall_cons. split; [|by apply Forall_nil].
      unfold item_keys, explicit_keys. simpl.
      rewrite !not_elem_of_cons. repeat split; try done.
      apply not_elem_of_nil.
Qed.

(** C5. Resolution is a total function of the input string: it looks up the
    lower-cased, trimmed input; on a hit it returns the stored identifier,
    on a miss the slug of the input as it was given. *)
Theorem coinNameToID_total (s : Service) (name : string) :
  (∀ id : string,
     cacheMap s !! strings.ToLower (strings.TrimSpace name) = Some id →
     coinNameToID util s name = id)
  ∧ (cacheMap s !! strings.ToLower (strings.TrimSpace name) = None →
     coinNameToID util s name = NameToSlug util name)
  ∧ (∃ id : string,
       coinNameToID util s name = id
       ∧ (cacheMap s !! strings.ToLower (strings.TrimSpace name) = Some id
          ∨ id = NameToSlug util name)).
Proof.
  unfold coinNameToID.
  destruct (cacheMap s !! _) as [id|] eqn:E; repeat split;
    try congruence; eauto.
Qed.

End ResolutionTheorems.

(** The collision catalog: ["bitcoin"] belongs to the first entry, and so
    does ["btc"], which the second entry offers too. *)
Lemma resolve_first_seen_witness :
  coinNameToID spec_util.util
    (NewCoinGecko spec_util.util (Examples.catalog_only Examples.collision))
    "bitcoin" = "bitcoin"
  ∧ coinNameToID spec_util.util
      (NewCoinGecko spec_util.util (Examples.catalog_only Examples.collision))
      "btc" = "bitcoin".
Proof.
  split.
  - refine (proj1 (resolve_first_seen spec_util.util
                     (Examples.catalog_only Examples.collision)
                     Examples.collision 0
                     (CoinsListItem.mk "bitcoin" "BTC" "Bitcoin") "bitcoin"
                     eq_refl eq_refl _ eq_refl) _).
    + vm_compute. repeat constructor.
    + simpl. constructor.
  - refine (proj2 (resolve_first_seen spec_util.util
                     (Examples.catalog_only Examples.collision)
                     Examples.collision 1
                     (CoinsListItem.mk "batcoin" "btc" "Batcoin") "btc"
                     eq_refl eq_refl _ eq_refl)
                  0%nat (CoinsListItem.mk "bitcoin" "BTC" "Bitcoin") _ eq_refl _ _).
    + vm_compute. repeat constructor.
    + lia.
    + vm_compute. repeat constructor.
    + simpl. constructor.
Defined.

(** C2 as stated fails when a key carries white space the resolver trims:
    the first entry of the catalog is named ["Foo "]; nothing precedes it,
    yet resolving its lower-cased name ["foo "] looks up ["foo"] and returns
    the identifier of the later entry named ["Foo"]. *)
Lemma resolve_padded_name_counterexample :
  Examples.padded !! 0%nat = Some (CoinsListItem.mk "foo-token" "FT" "Foo ")
  ∧ coinNameToID spec_util.util
      (NewCoinGecko spec_util.util (Examples.catalog_only Examples.padded))
      (strings.ToLower "Foo ") = "foo"
  ∧ coinNameToID spec_util.util
      (NewCoinGecko spec_util.util (Examples.catalog_only Examples.padded))
      (strings.ToLower "Foo ") ≠ "foo-token".
Proof.
  split; [reflexivity|]. split; [by vm_compute|].
  vm_compute. discriminate.
Qed.

(** The catalog of the specification, and a name whose second word is
    ["coin"]. *)
Lemma first_word_alias_deferred_witness :
  (("bitcoin", "bitcoin-cash")
     ∈ fst (catalog_pass spec_util.util Examples.bitcoin_cash_first)
   ∧ coinNameToID spec_util.util
       (NewCoinGecko spec_util.util
          (Examples.catalog_only Examples.bitcoin_cash_first))
       "bitcoin" = "bitcoin")
  ∧ snd (catalog_pass spec_util.util Examples.simple_coin) !! "simple"
    = Some "simple-coin".
Proof.
  split.
  - destruct (first_word_alias_deferred spec_util.util
                (Examples.catalog_only Examples.bitcoin_cash_first)
                Examples.bitcoin_cash_first eq_refl)
      as (Hcollect & _ & _ & _ & _ & Hspec).
    split.
    + apply (Hcollect (CoinsListItem.mk "bitcoin-cash" "BCH" "Bitcoin Cash")
                      "bitcoin" "cash" []).
      * vm_compute. repeat constructor.
      * reflexivity.
      * discriminate.
    + apply (Hspec "bitcoin-cash" "bitcoin" "BCH" "BTC" eq_refl).
      * vm_compute. discriminate.
      * vm_compute. discriminate.
  - destruct (first_word_alias_deferred spec_util.util
                (Examples.catalog_only Examples.simple_coin)
                Examples.simple_coin eq_refl)
      as (_ & _ & _ & _ & Hcoin & _).
    apply (Hcoin 0%nat (CoinsListItem.mk "simple-coin" "SMPL" "Simple Coin")
                 "simple" [] eq_refl eq_refl).
    simpl. constructor.
Defined.

(** A hit (after trimming and lower-casing) and a miss. *)
Lemma coinNameToID_total_witness :
  coinNameToID spec_util.util
    (NewCoinGecko spec_util.util (Examples.catalog_only Examples.collision))
    " BTC " = "bitcoin"
  ∧ coinNameToID spec_util.util
      (NewCoinGecko spec_util.util (Examples.catalog_only Examples.collision))
      "Doge Coin" = "doge-coin".
Proof.
  split.
  - apply (proj1 (coinNameToID_total spec_util.util _ " BTC ")).
    by vm_compute.
  - apply (proj1 (proj2 (coinNameToID_total spec_util.util _ "Doge Coin"))).
    by vm_compute.
Defined.

(** ** The page loop *)

Lemma wrap_int_small (z : Z) :
  (- 2 ^ 63 ≤ z < 2 ^ 63)%Z → wrap_int z = z.
Proof.
  intros Hz. unfold wrap_int. rewrite Z.mod_small; lia.
Qed.

Lemma pages_from_S (first : Z) (n : nat) :
  pages_from first (S n) = first :: pages_from (first + 1) n.
Proof.
  unfold pages_from. cbn [seq map]. f_equal; [lia|].
  rewrite <- seq_shift, map_map. apply map_ext. intros k. lia.
Qed.

Lemma pages_from_snoc (first : Z) (n : nat) :
  pages_from first (S n) = pages_from first n ++ [(first + Z.of_nat n)%Z].
Proof. unfold pages_from. by rewrite seq_S, map_app. Qed.

Lemma pages_from_length (first : Z) (n : nat) : length (pages_from first n) = n.
Proof. unfold pages_from. by rewrite length_map, length_seq. Qed.

Lemma sent_app (t1 t2 : list event) : sent (t1 ++ t2) = sent t1 ++ sent t2.
Proof.
  induction t1 as [|[] t1 IH]; simpl; by rewrite ?IH.
Qed.

Lemma requested_app (t1 t2 : list event) :
  requested (t1 ++ t2) = requested t1 ++ requested t2.
Proof.
  induction t1 as [|[] t1 IH]; simpl; by rewrite ?IH.
Qed.

Lemma sleeps_app (t1 t2 : list event) : sleeps (t1 ++ t2) = sleeps t1 ++ sleeps t2.
Proof.
  induction t1 as [|[] t1 IH]; simpl; by rewrite ?IH.
Qed.

Section PipelineFacts.

Context (util : Util).

Lemma NewCoinGecko_config (c : Client) :
  client (NewCoinGecko util c) = c
  ∧ maxPages (NewCoinGecko util c) = 10%Z
  ∧ maxResultsPerPage (NewCoinGecko util c) = 250%Z.
Proof.
  unfold NewCoinGecko, cacheCoinsIDList. simpl.
  destruct (CoinsList c) as [[l|]|msg]; [destruct (fold_left _ _ _)|..]; done.
Qed.

Lemma page_loop_ok (s : Service) (convert : string) (fuel : nat) (i : Z)
      (l : option (list CoinsMarketItem.t)) :
  (i < maxPages s)%Z →
  CoinsMarket (client s) (market_request util s convert i []) = Ok l →
  page_loop util s convert (S fuel) i =
  page_events util s convert i ++ page_loop util s convert fuel (i + 1).
Proof.
  intros Hi Hok. cbn [page_loop]. apply Z.ltb_lt in Hi. rewrite Hi.
  unfold page_events, page_batch, getPaginatedCoinData. rewrite Hok.
  rewrite <- app_assoc. by destruct l.
Qed.

Lemma page_loop_err (s : Service) (convert : string) (fuel : nat) (i : Z)
      (msg : string) :
  (i < maxPages s)%Z →
  CoinsMarket (client s) (market_request util s convert i []) = Err msg →
  page_loop util s convert (S fuel) i =
  (if (0 <? i)%Z then [EvSleep 1] else [])
    ++ [EvCoinsMarket (market_request util s convert i [])].
Proof.
  intros Hi Herr. cbn [page_loop]. apply Z.ltb_lt in Hi. rewrite Hi.
  unfold getPaginatedCoinData. by rewrite Herr.
Qed.

Lemma page_loop_end (s : Service) (convert : string) (fuel : nat) (i : Z) :
  (maxPages s ≤ i)%Z → page_loop util s convert fuel i = [].
Proof.
  intros Hi. destruct fuel; [done|]. cbn [page_loop].
  by rewrite (proj2 (Z.ltb_ge _ _) Hi).
Qed.

(** Fuel beyond [maxPages - i] is never used. *)
Lemma page_loop_fuel (s : Service) (convert : string) (fuel1 fuel2 : nat) (i : Z) :
  (Z.to_nat (maxPages s - i) ≤ fuel1)%nat →
  (Z.to_nat (maxPages s - i) ≤ fuel2)%nat →
  page_loop util s convert fuel1 i = page_loop util s convert fuel2 i.
Proof.
  revert fuel2 i. induction fuel1 as [|fuel1 IH]; intros fuel2 i H1 H2.
  - rewrite !page_loop_end by lia. done.
  - destruct fuel2 as [|fuel2].
    { rewrite !page_loop_end by lia. done. }
    cbn [page_loop]. destruct (Z.ltb_spec i (maxPages s)) as [Hi|Hi]; [|done].
    rewrite (IH fuel2 (i + 1)%Z) by lia. done.
Qed.

(** [n] successful pages in a row. *)
Lemma page_loop_run (s : Service) (convert : string) (n fuel : nat) (i : Z) :
  (i + Z.of_nat n ≤ maxPages s)%Z →
  (∀ j : Z, (i ≤ j < i + Z.of_nat n)%Z →
     ∃ l, CoinsMarket (client s) (market_request util s convert j []) = Ok l) →
  page_loop util s convert (n + fuel) i =
  flat_map (page_events util s convert) (pages_from i n)
    ++ page_loop util s convert fuel (i + Z.of_nat n).
Proof.
  revert i. induction n as [|n IH]; intros i Hmax Hok.
  - simpl. by rewrite Z.add_0_r.
  - destruct (Hok i) as [l Hl]; [lia|].
    change (S n + fuel)%nat with (S (n + fuel)).
    rewrite (page_loop_ok s convert _ i l) by (done || lia).
    rewrite pages_from_S. cbn [flat_map]. rewrite <- app_assoc.
    rewrite IH.
    + do 3 f_equal. lia.
    + lia.
    + intros j Hj. apply Hok. lia.
Qed.

Lemma sent_pages (s : Service) (convert : string) (l : list Z) :
  sent (flat_map (page_events util s convert) l)
  = map (page_batch util s convert) l.
Proof.
  induction l as [|i l IH]; [done|]. cbn [flat_map map].
  rewrite sent_app, IH. unfold page_events. by destruct (0 <? i)%Z.
Qed.

Lemma requested_pages (s : Service) (convert : string) (l : list Z) :
  requested (flat_map (page_events util s convert) l)
  = map (fun i => market_request util s convert i []) l.
Proof.
  induction l as [|i l IH]; [done|]. cbn [flat_map map].
  rewrite requested_app, IH. unfold page_events. by destruct (0 <? i)%Z.
Qed.

Lemma sleeps_pages (s : Service) (convert : string) (l : list Z) :
  sleeps (flat_map (page_events util s convert) l)
  = flat_map (fun i => if (0 <? i)%Z then [1%Z] else []) l.
Proof.
  induction l as [|i l IH]; [done|]. cbn [flat_map].
  rewrite sleeps_app, IH. unfold page_events. by destruct (0 <? i)%Z.
Qed.

(** The page numbers of the requests for the loop indices [0 .. n-1]. *)
Lemma request_pages (s : Service) (convert : string) (n : nat) :
  (Z.of_nat n < 2 ^ 63)%Z →
  map (fun i => Request.page (market_request util s convert i []))
      (pages_from 0 n)
  = pages_from 1 n.
Proof.
  intros Hn. unfold pages_from. rewrite map_map.
  apply map_ext_in. intros k Hk%in_seq. simpl.
  rewrite wrap_int_small; lia.
Qed.

End PipelineFacts.

Section PipelineTheorems.

Context (util : Util).

(** C1. When the fetches of pages [1 .. N-1] succeed and the fetch of page
    [N] fails, the goroutine of [GetAllCoinData] sends exactly the [N-1]
    batches of those pages, as they were normalised and in page order,
    requests each of the pages [1 .. N] once and none after page [N], and
    closes the channel right after the failed request; the channel carries
    batches only, so the error is not delivered through it. *)
Theorem GetAllCoinData_partial_failure (s : Service) (convert : string)
        (N : nat) (msg : string) :
  (maxPages s < 2 ^ 63)%Z →
  (1 ≤ N)%nat →
  (Z.of_nat N ≤ maxPages s)%Z →
  (∀ p : Z, (1 ≤ p < Z.of_nat N)%Z →
     ∃ l, CoinsMarket (client s) (market_request util s convert (p - 1) [])
          = Ok l) →
  CoinsMarket (client s) (market_request util s convert (Z.of_nat N - 1) [])
    = Err msg →
  snd (GetAllCoinData util s convert)
  = flat_map (page_events util s convert) (pages_from 0 (N - 1))
      ++ (if (1 <? N)%nat then [EvSleep 1] else [])
      ++ [EvCoinsMarket (market_request util s convert (Z.of_nat N - 1) []);
          EvClose]
  ∧ sent (snd (GetAllCoinData util s convert))
    = map (page_batch util s convert) (pages_from 0 (N - 1))
  ∧ length (sent (snd (GetAllCoinData util s convert))) = (N - 1)%nat
  ∧ map Request.page (requested (snd (GetAllCoinData util s convert)))
    = pages_from 1 N.
Proof.
  intros Hint HN Hmax Hok Herr.
  assert (Htr : snd (GetAllCoinData util s convert)
                = flat_map (page_events util s convert) (pages_from 0 (N - 1))
                    ++ (if (1 <? N)%nat then [EvSleep 1] else [])
                    ++ [EvCoinsMarket
                          (market_request util s convert (Z.of_nat N - 1) []);
                        EvClose]).
  { unfold GetAllCoinData. cbn [snd].
    replace (Z.to_nat (maxPages s))
      with ((N - 1) + S (Z.to_nat (maxPages s) - N))%nat by lia.
    rewrite page_loop_run.
    - replace (0 + Z.of_nat (N - 1))%Z with (Z.of_nat N - 1)%Z by lia.
      rewrite (page_loop_err util s convert _ _ msg) by (done || lia).
      rewrite <- !app_assoc. do 2 f_equal.
      destruct (Nat.ltb_spec 1 N), (Z.ltb_spec 0 (Z.of_nat N - 1)); (done || lia).
    - lia.
    - intros j Hj. replace j with ((j + 1) - 1)%Z by lia. apply Hok. lia. }
  rewrite Htr. repeat split.
  - rewrite sent_app, sent_pages. destruct (1 <? N)%nat; simpl; by rewrite app_nil_r.
  - rewrite sent_app, sent_pages, length_app, length_map, pages_from_length.
    destruct (1 <? N)%nat; simpl; lia.
  - rewrite requested_app, requested_pages, map_app, map_map.
    rewrite request_pages by lia.
    replace (pages_from 1 N) with (pages_from 1 (N - 1) ++ [Z.of_nat N]).
    + f_equal. destruct (1 <? N)%nat; simpl; rewrite wrap_int_small; (f_equal; lia) || lia.
    + destruct N as [|n]; [lia|]. replace (S n - 1)%nat with n by lia.
      rewrite pages_from_snoc. do 2 f_equal. lia.
Qed.

(** C4. Against a provider that answers every market request, the freshly
    built service ([maxPages] 10, page size 250) requests the pages
    [1 .. 10] one after the other, in ascending order, each with page size
    250, sends one batch after each request, pauses one second before each
    request but the first, and closes the channel after the tenth batch. *)
Theorem GetAllCoinData_ceiling (c : Client) (convert : string) :
  (∀ r : Request.t, ∃ l, CoinsMarket c r = Ok l) →
  snd (GetAllCoinData util (NewCoinGecko util c) convert)
  = flat_map (page_events util (NewCoinGecko util c) convert) (pages_from 0 10)
      ++ [EvClose]
  ∧ sent (snd (GetAllCoinData util (NewCoinGecko util c) convert))
    = map (page_batch util (NewCoinGecko util c) convert) (pages_from 0 10)
  ∧ length (sent (snd (GetAllCoinData util (NewCoinGecko util c) convert)))
    = 10%nat
  ∧ map Request.page
        (requested (snd (GetAllCoinData util (NewCoinGecko util c) convert)))
    = [1; 2; 3; 4; 5; 6; 7; 8; 9; 10]%Z
  ∧ Forall (fun r => Request.perPage r = 250%Z)
           (requested (snd (GetAllCoinData util (NewCoinGecko util c) convert)))
  ∧ sleeps (snd (GetAllCoinData util (NewCoinGecko util c) convert))
    = repeat 1%Z 9
  ∧ (∃ rest,
       snd (GetAllCoinData util (NewCoinGecko util c) convert)
       = EvCoinsMarket (market_request util (NewCoinGecko util c) convert 0 [])
           :: EvSend (page_batch util (NewCoinGecko util c) convert 0)
           :: EvSleep 1 :: rest).
Proof.
  intros Hok.
  destruct (NewCoinGecko_config util c) as (Hc & Hmax & Hper).
  set (s := NewCoinGecko util c) in *.
  assert (Htr : snd (GetAllCoinData util s convert)
                = flat_map (page_events util s convert) (pages_from 0 10)
                    ++ [EvClose]).
  { unfold GetAllCoinData. cbn [snd]. rewrite Hmax.
    change (Z.to_nat 10) with (10 + 0)%nat.
    rewrite page_loop_run.
    - by rewrite page_loop_end by (rewrite Hmax; lia).
    - rewrite Hmax. lia.
    - intros j _. rewrite Hc. apply Hok. }
  rewrite Htr. split; [reflexivity|].
  assert (Hsent : sent (flat_map (page_events util s convert) (pages_from 0 10)
                          ++ [EvClose])
                  = map (page_batch util s convert) (pages_from 0 10)).
  { rewrite sent_app, sent_pages. apply app_nil_r. }
  split; [exact Hsent|].
  split; [by rewrite Hsent, length_map, pages_from_length|].
  rewrite requested_app, requested_pages.
  change (requested [EvClose]) with (@nil Request.t). rewrite app_nil_r.
  split; [by rewrite map_map, request_pages by lia|].
  split; [apply Forall_map, Forall_forall; intros i _; apply Hper|].
  split; [by rewrite sleeps_app, sleeps_pages|].
  eexists. reflexivity.
Qed.

(** C9. [GetAllCoinData] returns [nil] to its caller whatever happens; when
    the first page fetch fails, the failure shows only as a channel closed
    before any batch was sent. *)
Theorem GetAllCoinData_returns_nil (s : Service) (convert : string) :
  fst (GetAllCoinData util s convert) = None
  ∧ (∀ msg : string,
       (0 < maxPages s)%Z →
       CoinsMarket (client s) (market_request util s convert 0 []) = Err msg →
       snd (GetAllCoinData util s convert)
       = [EvCoinsMarket (market_request util s convert 0 []); EvClose]
       ∧ sent (snd (GetAllCoinData util s convert)) = []).
Proof.
  split; [reflexivity|]. intros msg Hmax Herr.
  assert (Htr : snd (GetAllCoinData util s convert)
                = [EvCoinsMarket (market_request util s convert 0 []); EvClose]).
  { unfold GetAllCoinData. cbn [snd].
    replace (Z.to_nat (maxPages s)) with (S (Z.to_nat (maxPages s) - 1)) by lia.
    by rewrite (page_loop_err util s convert _ 0 msg). }
  by rewrite Htr.
Qed.

End PipelineTheorems.

(** A provider that fails on page 3: two batches, then the channel closes. *)
Lemma GetAllCoinData_partial_failure_witness :
  length (sent (snd (GetAllCoinData spec_util.util
                       (NewCoinGecko spec_util.util (Examples.pages 3)) "usd")))
  = 2%nat
  ∧ map Request.page
        (requested (snd (GetAllCoinData spec_util.util
                           (NewCoinGecko spec_util.util (Examples.pages 3)) "usd")))
    = [1; 2; 3]%Z.
Proof.
  destruct (GetAllCoinData_partial_failure spec_util.util
              (NewCoinGecko spec_util.util (Examples.pages 3)) "usd" 3 "timeout")
    as (_ & _ & Hlen & Hpages).
  - reflexivity.
  - lia.
  - vm_compute. discriminate.
  - intros p Hp. assert (p = 1 ∨ p = 2)%Z as [-> | ->] by lia; by eexists.
  - reflexivity.
  - split; [exact Hlen | exact Hpages].
Defined.

(** A provider that never fails: ten batches, nine pauses. *)
Lemma GetAllCoinData_ceiling_witness :
  length (sent (snd (GetAllCoinData spec_util.util
                       (NewCoinGecko spec_util.util
                          (Examples.market (Ok (Some Examples.one_page))))
                       "usd")))
  = 10%nat
  ∧ sleeps (snd (GetAllCoinData spec_util.util
                   (NewCoinGecko spec_util.util
                      (Examples.market (Ok (Some Examples.one_page))))
                   "usd"))
    = repeat 1%Z 9.
Proof.
  destruct (GetAllCoinData_ceiling spec_util.util
              (Examples.market (Ok (Some Examples.one_page))) "usd")
    as (_ & _ & Hlen & _ & _ & Hsleeps & _).
  - intros r. by eexists.
  - split; [exact Hlen | exact Hsleeps].
Defined.

(** A provider that fails on the first page. *)
Lemma GetAllCoinData_returns_nil_witness :
  fst (GetAllCoinData spec_util.util
         (NewCoinGecko spec_util.util (Examples.pages 1)) "usd") = None
  ∧ sent (snd (GetAllCoinData spec_util.util
                 (NewCoinGecko spec_util.util (Examples.pages 1)) "usd")) = [].
Proof.
  destruct (GetAllCoinData_returns_nil spec_util.util
              (NewCoinGecko spec_util.util (Examples.pages 1)) "usd")
    as (Hnil & Hfirst).
  split; [exact Hnil|].
  apply (Hfirst "timeout"); [reflexivity | reflexivity].
Defined.

(** ** Normalisation, targeted fetch and price lookup *)

Lemma price_scan_none (cur : string) (pl : priceList) :
  price_scan cur pl = None ↔ Forall (fun item => snd item !! cur = None) pl.
Proof.
  induction pl as [|[id item] pl IH]; simpl.
  - split; [intros _; constructor | done].
  - rewrite Forall_cons. simpl. destruct (item !! cur) as [p|].
    + split; [done | by intros [? _]].
    + rewrite IH. tauto.
Qed.

Lemma price_scan_first (cur : string) (pre post : priceList) (id : string)
      (item : gmap string float) (p : float) :
  Forall (fun it => snd it !! cur = None) pre →
  item !! cur = Some p →
  price_scan cur (pre ++ (id, item) :: post) = Some p.
Proof.
  intros Hpre Hp. induction Hpre as [|[id' item'] pre Hnone _ IH]; simpl.
  - by rewrite Hp.
  - simpl in Hnone. by rewrite Hnone.
Qed.

Section RecordTheorems.

Context (util : Util).

(** C7. A fetched page is normalised record by record and without error:
    a record whose raw total supply equals [0] gets the circulating supply
    as its total supply (so both normalised supplies agree), any other raw
    total supply is passed on to the formatter; and each of the four
    percent-change fields is formatted from [0] when the provider left it
    out, and from the provider's value otherwise. *)
Theorem normalize_defaults (s : Service) (convert : string) (offset : Z)
        (names : list string) (items : list CoinsMarketItem.t) :
  CoinsMarket (client s) (market_request util s convert offset names)
    = Ok (Some items) →
  ∃ recs : list Coin.t,
    snd (getPaginatedCoinData util s convert offset names) = (recs, None)
    ∧ length recs = length items
    ∧ ∀ (i : nat) (item : CoinsMarketItem.t),
        items !! i = Some item →
        ∃ r : Coin.t,
          recs !! i = Some r
          ∧ (PrimFloat.eqb (CoinsMarketItem.TotalSupply item) 0%float = true →
             Coin.TotalSupply r
               = FormatSupply util (CoinsMarketItem.CirculatingSupply item)
             ∧ Coin.TotalSupply r = Coin.AvailableSupply r)
          ∧ (PrimFloat.eqb (CoinsMarketItem.TotalSupply item) 0%float = false →
             Coin.TotalSupply r
               = FormatSupply util (CoinsMarketItem.TotalSupply item))
          ∧ Coin.PercentChange1H r
            = FormatPercentChange util
                (default 0%float
                   (CoinsMarketItem.PriceChangePercentage1hInCurrency item))
          ∧ Coin.PercentChange24H r
            = FormatPercentChange util
                (default 0%float
                   (CoinsMarketItem.PriceChangePercentage24hInCurrency item))
          ∧ Coin.PercentChange7D r
            = FormatPercentChange util
                (default 0%float
                   (CoinsMarketItem.PriceChangePercentage7dInCurrency item))
          ∧ Coin.PercentChange30D r
            = FormatPercentChange util
                (default 0%float
                   (CoinsMarketItem.PriceChangePercentage30dInCurrency item)).
Proof.
  intros Hok. exists (map (normalize util convert) items).
  unfold getPaginatedCoinData. rewrite Hok. cbn [snd].
  split; [done|]. split; [by rewrite length_map|].
  intros i item Hi. exists (normalize util convert item).
  split; [by rewrite list_lookup_fmap, Hi|].
  unfold normalize. cbn.
  destruct (PrimFloat.eqb (CoinsMarketItem.TotalSupply item) 0%float);
    repeat split; try done;
    by destruct (CoinsMarketItem.PriceChangePercentage1hInCurrency item),
       (CoinsMarketItem.PriceChangePercentage24hInCurrency item),
       (CoinsMarketItem.PriceChangePercentage7dInCurrency item),
       (CoinsMarketItem.PriceChangePercentage30dInCurrency item).
Qed.




(** C10. [GetCoinData] asks for the one resolved identifier; when the fetch
    succeeds with no record it returns the zero-value record and no error;
    it returns an error exactly when the fetch fails, and the zero-value
    record with it. *)
Theorem GetCoinData_empty (s : Service) (name convert : string) :
  Request.ids (market_request util s convert 0 [name]) = [coinNameToID util s name]
  ∧ (CoinsMarket (client s) (market_request util s convert 0 [name]) = Ok None
     ∨ CoinsMarket (client s) (market_request util s convert 0 [name]) = Ok (Some []) →
     snd (GetCoinData util s name convert) = (Coin.zero, None))
  ∧ (∀ e : error,
       snd (snd (GetCoinData util s name convert)) = Some e
       ↔ ∃ msg : string,
           CoinsMarket (client s) (market_request util s convert 0 [name]) = Err msg
           ∧ e = ErrClient msg)
  ∧ (∀ e : error,
       snd (snd (GetCoinData util s name convert)) = Some e →
       fst (snd (GetCoinData util s name convert)) = Coin.zero).
Proof.
  split; [reflexivity|].
  unfold GetCoinData, getPaginatedCoinData.
  destruct (CoinsMarket (client s) _) as [[[|item items]|]|msg]; cbn.
  - split; [done|]. split; [|done].
    intros e. split; [done | by intros (? & ? & _)].
  - split; [by intros [|]|]. split; [|done].
    intros e. split; [done | by intros (? & ? & _)].
  - split; [done|]. split; [|done].
    intros e. split; [done | by intros (? & ? & _)].
  - split; [by intros [|]|]. split; [|done].
    intros e. split.
    + intros [= <-]. by eexists.
    + by intros (? & [= <-] & ->).
Qed.

(** C8. [Price] makes one price request, for the resolved identifier and
    the lower-cased currency.  It returns [ErrNotFound], with price [0],
    exactly when the request succeeds and no item of the list has the
    currency; when an item has it, the price of the first such item is
    returned formatted, with no error; when the request fails, its error is
    returned with price [0]. *)
Theorem Price_not_found (s : Service) (name convert : string) :
  fst (Price util s name convert)
  = [EvSimplePrice [coinNameToID util s name] [strings.ToLower convert]]
  ∧ (snd (snd (Price util s name convert)) = Some ErrNotFound
     ↔ ∃ pl : priceList,
         SimplePrice (client s) [coinNameToID util s name] [strings.ToLower convert]
           = Ok pl
         ∧ Forall (fun item => snd item !! strings.ToLower convert = None) pl)
  ∧ (snd (snd (Price util s name convert)) = Some ErrNotFound →
     fst (snd (Price util s name convert)) = 0%float)
  ∧ (∀ (pre post : priceList) (id : string) (item : gmap string float) (p : float),
       SimplePrice (client s) [coinNameToID util s name] [strings.ToLower convert]
         = Ok (pre ++ (id, item) :: post) →
       Forall (fun it => snd it !! strings.ToLower convert = None) pre →
       item !! strings.ToLower convert = Some p →
       snd (Price util s name convert)
       = (FormatPrice util p (strings.ToLower convert), None))
  ∧ (∀ msg : string,
       SimplePrice (client s) [coinNameToID util s name] [strings.ToLower convert]
         = Err msg →
       snd (Price util s name convert) = (0%float, Some (ErrClient msg))).
Proof.
  split; [reflexivity|]. unfold Price. cbn [fst snd].
  destruct (SimplePrice (client s) _ _) as [pl|msg].
  - destruct (price_scan (strings.ToLower convert) pl) as [p|] eqn:E; cbn.
    + split.
      { split; [done|]. intros (pl' & [= <-] & Hnone).
        apply price_scan_none in Hnone. congruence. }
      split; [done|]. split; [|done].
      intros pre post id item p' [= ->] Hpre Hp.
      rewrite (price_scan_first _ pre post id item p' Hpre Hp) in E.
      by injection E as ->.
    + split.
      { split; [|done]. intros _. exists pl. split; [done|].
        by apply price_scan_none. }
      split; [done|]. split; [|done].
      intros pre post id item p' [= ->] Hpre Hp.
      by rewrite (price_scan_first _ pre post id item p' Hpre Hp) in E.
  - cbn. split.
    { split; [done | by intros (? & ? & _)]. }
    split; [done|]. split; [done|]. by intros ? [= <-].
Qed.

End RecordTheorems.

(** Raw total supply [0] with circulating supply [1000], and no 7-day
    change. *)
Lemma normalize_defaults_witness :
  ∃ (recs : list Coin.t) (r : Coin.t),
    snd (getPaginatedCoinData spec_util.util
           (NewCoinGecko spec_util.util
              (Examples.market (Ok (Some Examples.one_page))))
           "usd" 0 [])
    = (recs, None)
    ∧ recs !! 0%nat = Some r
    ∧ Coin.TotalSupply r = 1000%float
    ∧ Coin.PercentChange7D r = 0%float.
Proof.
  destruct (normalize_defaults spec_util.util
              (NewCoinGecko spec_util.util
                 (Examples.market (Ok (Some Examples.one_page))))
              "usd" 0 [] Examples.one_page eq_refl)
    as (recs & Hres & _ & Hrec).
  destruct (Hrec 0%nat
              (Examples.market_item "bitcoin" 1.125%float 0%float 1000%float None)
              eq_refl)
    as (r & Hr & Hzero & _ & _ & _ & H7 & _).
  exists recs, r. split; [exact Hres|]. split; [exact Hr|].
  split.
  - exact (proj1 (Hzero eq_refl)).
  - exact H7.
Defined.


(** No record for the identifier, and a failed fetch. *)
Lemma GetCoinData_empty_witness :
  snd (GetCoinData spec_util.util
         (NewCoinGecko spec_util.util (Examples.market (Ok (Some []))))
         "bitcoin" "usd")
  = (Coin.zero, None)
  ∧ snd (snd (GetCoinData spec_util.util
                (NewCoinGecko spec_util.util (Examples.market (Err "timeout")))
                "bitcoin" "usd"))
    = Some (ErrClient "timeout").
Proof.
  split.
  - apply (proj1 (proj2 (GetCoinData_empty spec_util.util _ "bitcoin" "usd"))).
    right. reflexivity.
  - apply (proj1 (proj2 (proj2 (GetCoinData_empty spec_util.util
                                   (NewCoinGecko spec_util.util
                                      (Examples.market (Err "timeout")))
                                   "bitcoin" "usd")))).
    exists "timeout". split; reflexivity.
Defined.

(** A price list whose second item has the currency, one without the
    currency, and a failed request. *)
Lemma Price_not_found_witness :
  snd (Price spec_util.util
         (NewCoinGecko spec_util.util (Examples.prices (Ok Examples.price_list)))
         "Bitcoin" "USD")
  = (9000.5%float, None)
  ∧ snd (snd (Price spec_util.util
                (NewCoinGecko spec_util.util
                   (Examples.prices (Ok Examples.price_list)))
                "Bitcoin" "JPY"))
    = Some ErrNotFound
  ∧ snd (Price spec_util.util
           (NewCoinGecko spec_util.util (Examples.prices (Err "offline")))
           "Bitcoin" "USD")
    = (0%float, Some (ErrClient "offline")).
Proof.
  split; [|split].
  - destruct (Price_not_found spec_util.util
                (NewCoinGecko spec_util.util
                   (Examples.prices (Ok Examples.price_list)))
                "Bitcoin" "USD") as (_ & _ & _ & Hfirst & _).
    apply (Hfirst [("bitcoin-cash", {[ "eur" := 200%float ]})] []
                  "bitcoin" {[ "usd" := 9000.5%float ]} 9000.5%float).
    + reflexivity.
    + constructor; [by vm_compute | constructor].
    + by vm_compute.
  - destruct (Price_not_found spec_util.util
                (NewCoinGecko spec_util.util
                   (Examples.prices (Ok Examples.price_list)))
                "Bitcoin" "JPY") as (_ & Hnot & _).
    apply Hnot. exists Examples.price_list. split; [reflexivity|].
    repeat constructor.
  - destruct (Price_not_found spec_util.util
                (NewCoinGecko spec_util.util (Examples.prices (Err "offline")))
                "Bitcoin" "USD") as (_ & _ & _ & _ & Herr).
    apply (Herr "offline"). reflexivity.
Defined.

(** * More of the service *)

(** ** The resolution cache on any starting state *)

Lemma first_claim_in_some (k id : string) (l : list (string * string)) :
  (k, id) ∈ l → is_Some (first_claim k l).
Proof.
  induction l as [|[k' id'] l IH]; intros Hin.
  - by apply elem_of_nil in Hin.
  - simpl. destruct (String.eqb_spec k' k) as [->|Hne]; [by eexists|].
    apply elem_of_cons in Hin as [[= <- <-]|Hin]; [done|]. by apply IH.
Qed.

Lemma commit_first_words_keeps (l : list (string * string))
      (m : gmap string string) (k v : string) :
  m !! k = Some v → commit_first_words l m !! k = Some v.
Proof. intros Hk. by rewrite commit_first_words_lookup, Hk. Qed.

Lemma commit_first_words_has (l : list (string * string))
      (m : gmap string string) (k id : string) :
  (k, id) ∈ l → is_Some (commit_first_words l m !! k).
Proof.
  intros Hin. rewrite commit_first_words_lookup.
  destruct (m !! k); [by eexists|]. by eapply first_claim_in_some.
Qed.

(** Offering keys the table already has changes nothing. *)
Lemma commit_first_words_absorb (l : list (string * string))
      (m : gmap string string) :
  (∀ k id, (k, id) ∈ l → is_Some (m !! k)) → commit_first_words l m = m.
Proof.
  intros Hl. apply map_eq. intros k. rewrite commit_first_words_lookup.
  destruct (m !! k) as [v|] eqn:E; [done|].
  destruct (first_claim k l) as [id|] eqn:F; [|done].
  apply first_claim_Some_in, Hl in F. rewrite E in F. by destruct F.
Qed.

Lemma store_absent_size (key id : string) (m : gmap string string) :
  (size (store_absent key id m) ≤ S (size m))%nat.
Proof.
  unfold store_absent. destruct (m !! key) eqn:E; [lia|].
  by rewrite map_size_insert_None.
Qed.

Lemma commit_first_words_size (l : list (string * string))
      (m : gmap string string) :
  (size (commit_first_words l m) ≤ size m + length l)%nat.
Proof.
  unfold commit_first_words. revert m.
  induction l as [|[k id] l IH]; intros m; simpl; [lia|].
  etrans; [apply IH|]. pose proof (store_absent_size k id m). lia.
Qed.

Lemma set_cacheMap_id (s : Service) : set_cacheMap s (cacheMap s) = s.
Proof. by destruct s. Qed.

Section CacheFacts.

Context (util : Util).

Lemma cacheCoinsIDList_cacheMap (s : Service) (catalog : list CoinsListItem.t) :
  CoinsList (client s) = Ok (Some catalog) →
  cacheMap (fst (cacheCoinsIDList util s))
  = commit_first_words (deferred catalog)
      (commit_first_words (immediate util catalog) (cacheMap s)).
Proof.
  intros Hc. unfold cacheCoinsIDList. rewrite Hc, fold_cache_item. done.
Qed.

Lemma cacheCoinsIDList_client (s : Service) :
  client (fst (cacheCoinsIDList util s)) = client s.
Proof.
  unfold cacheCoinsIDList.
  destruct (CoinsList (client s)) as [[l|]|msg]; [destruct (fold_left _ _ _)|..]; done.
Qed.

Lemma item_offers_at_most_four (item : CoinsListItem.t) :
  (length (item_keys util item) + length (item_first_words item) ≤ 4)%nat.
Proof.
  unfold item_keys, item_first_words, explicit_keys.
  destruct (strings.Split _ _) as [|p0 [|p1 rest]]; simpl; try lia.
  destruct (String.eqb p1 "coin"); simpl; lia.
Qed.

Lemma offers_length (catalog : list CoinsListItem.t) :
  (length (immediate util catalog) + length (deferred catalog)
   ≤ 4 * length catalog)%nat.
Proof.
  induction catalog as [|item catalog IH]; [simpl; lia|].
  unfold immediate, deferred in *. cbn [flat_map length].
  rewrite !length_app, length_map.
  pose proof (item_offers_at_most_four item). lia.
Qed.

Lemma first_claim_deferred (catalog : list CoinsListItem.t) (i : nat)
      (e : CoinsListItem.t) (k : string) :
  catalog !! i = Some e →
  first_claim k (item_first_words e) = Some (CoinsListItem.ID e) →
  Forall (fun e' => first_claim k (item_first_words e') = None) (take i catalog) →
  first_claim k (deferred catalog) = Some (CoinsListItem.ID e).
Proof.
  revert i. induction catalog as [|e' catalog IH]; intros i Hi He Hpre; [done|].
  unfold deferred. cbn [flat_map]. rewrite first_claim_app.
  destruct i as [|i]; simpl in *.
  - injection Hi as ->. by rewrite He.
  - apply Forall_cons in Hpre as [Hnone Hpre]. rewrite Hnone. by apply (IH i).
Qed.

Lemma first_claim_deferred_none (catalog : list CoinsListItem.t) (k : string) :
  Forall (fun e => first_claim k (item_first_words e) = None) catalog →
  first_claim k (deferred catalog) = None.
Proof.
  induction 1 as [|e catalog He _ IH]; [done|].
  unfold deferred. cbn [flat_map]. by rewrite first_claim_app, He.
Qed.

Lemma first_claim_immediate_none (catalog : list CoinsListItem.t) (k : string) :
  Forall (fun e => k ∉ item_keys util e) catalog →
  first_claim k (immediate util catalog) = None.
Proof.
  induction 1 as [|e catalog He _ IH]; [done|].
  unfold immediate. cbn [flat_map].
  by rewrite first_claim_app, first_claim_keys_out.
Qed.

Lemma item_first_words_inv (e : CoinsListItem.t) (k id : string) :
  (k, id) ∈ item_first_words e →
  id = CoinsListItem.ID e
  ∧ ∃ p1 rest, strings.Split (strings.ToLower (CoinsListItem.Name e)) " "
               = k :: p1 :: rest ∧ p1 ≠ "coin".
Proof.
  unfold item_first_words.
  destruct (strings.Split _ _) as [|p0 [|p1 rest]]; try (by intros ?%elem_of_nil).
  destruct (String.eqb_spec p1 "coin"); [by intros ?%elem_of_nil|].
  intros [= -> ->]%list_elem_of_singleton. eauto.
Qed.

End CacheFacts.

Section CacheTheorems.

Context (util : Util).

(** X1. A service is built even when the catalog request fails, returns no
    list or returns an empty one: its table is then empty, so every name
    resolves to its slug, and the page limits are the usual ones. *)
Theorem NewCoinGecko_without_catalog (c : Client) :
  (∃ msg, CoinsList c = Err msg) ∨ CoinsList c = Ok None
  ∨ CoinsList c = Ok (Some []) →
  cacheMap (NewCoinGecko util c) = ∅
  ∧ (∀ name : string,
       coinNameToID util (NewCoinGecko util c) name = NameToSlug util name)
  ∧ maxPages (NewCoinGecko util c) = 10%Z
  ∧ maxResultsPerPage (NewCoinGecko util c) = 250%Z.
Proof.
  intros Hc.
  assert (Hempty : cacheMap (NewCoinGecko util c) = ∅).
  { unfold NewCoinGecko, cacheCoinsIDList. simpl.
    destruct Hc as [[msg ->]|[->| ->]]; reflexivity. }
  split; [exact Hempty|]. split.
  - intros name. unfold coinNameToID. by rewrite Hempty, lookup_empty.
  - destruct (NewCoinGecko_config util c) as (_ & Hmax & Hper). done.
Qed.

(** X2. Whatever the table holds before [cacheCoinsIDList] runs is still
    there afterwards, with the same value: the build adds bindings and never
    replaces or removes one. *)
Theorem cacheCoinsIDList_keeps_bindings (s : Service) (k v : string) :
  cacheMap s !! k = Some v →
  cacheMap (fst (cacheCoinsIDList util s)) !! k = Some v.
Proof.
  intros Hk. destruct (CoinsList (client s)) as [[catalog|]|msg] eqn:Hc.
  - rewrite (cacheCoinsIDList_cacheMap util s catalog Hc).
    by do 2 apply commit_first_words_keeps.
  - unfold cacheCoinsIDList. by rewrite Hc.
  - unfold cacheCoinsIDList. by rewrite Hc.
Qed.

(** X3. Building the table a second time from the same catalog changes
    nothing. *)
Theorem cacheCoinsIDList_idempotent (s : Service) :
  fst (cacheCoinsIDList util (fst (cacheCoinsIDList util s)))
  = fst (cacheCoinsIDList util s).
Proof.
  destruct (CoinsList (client s)) as [[catalog|]|msg] eqn:Hc.
  - assert (Hm : cacheMap (fst (cacheCoinsIDList util s))
                 = commit_first_words (deferred catalog)
                     (commit_first_words (immediate util catalog) (cacheMap s)))
      by by apply cacheCoinsIDList_cacheMap.
    assert (Hs : fst (cacheCoinsIDList util s)
                 = set_cacheMap s (cacheMap (fst (cacheCoinsIDList util s)))).
    { unfold cacheCoinsIDList. rewrite Hc. by destruct (fold_left _ _ _). }
    set (s1 := fst (cacheCoinsIDList util s)) in *.
    assert (Hc1 : CoinsList (client s1) = Ok (Some catalog)).
    { rewrite Hs. exact Hc. }
    assert (Hs2 : fst (cacheCoinsIDList util s1)
                  = set_cacheMap s1 (cacheMap (fst (cacheCoinsIDList util s1)))).
    { unfold cacheCoinsIDList. rewrite Hc1. by destruct (fold_left _ _ _). }
    rewrite Hs2, (cacheCoinsIDList_cacheMap util s1 catalog Hc1).
    rewrite (commit_first_words_absorb (immediate util catalog)).
    + rewrite commit_first_words_absorb; [apply set_cacheMap_id|].
      intros k id Hin. rewrite Hm. by eapply commit_first_words_has.
    + intros k id Hin. rewrite Hm.
      destruct (commit_first_words_has (immediate util catalog) (cacheMap s) k id Hin)
        as [v Hv].
      exists v. by apply commit_first_words_keeps.
  - unfold cacheCoinsIDList at 2. rewrite Hc. simpl.
    unfold cacheCoinsIDList. by rewrite Hc.
  - unfold cacheCoinsIDList at 2. rewrite Hc. simpl.
    unfold cacheCoinsIDList. by rewrite Hc.
Qed.

(** X4. Every binding of a freshly built table comes from the catalog: the
    value is the identifier of an entry, and the key is that entry's
    lower-cased name, lower-cased symbol or slug, or the first word of its
    lower-cased name when the name has several words. *)
Theorem table_provenance (c : Client) (catalog : list CoinsListItem.t)
        (k id : string) :
  CoinsList c = Ok (Some catalog) →
  cacheMap (NewCoinGecko util c) !! k = Some id →
  ∃ w : CoinsListItem.t,
    w ∈ catalog ∧ CoinsListItem.ID w = id
    ∧ (k ∈ explicit_keys util w
       ∨ ∃ p1 rest, strings.Split (strings.ToLower (CoinsListItem.Name w)) " "
                    = k :: p1 :: rest).
Proof.
  intros Hc. rewrite (table_lookup util c catalog k Hc), pass_lookup.
  rewrite catalog_pass_eq. cbn [fst].
  destruct (first_claim k (immediate util catalog)) as [id'|] eqn:E.
  - intros [= ->]. apply first_claim_immediate_in in E as (w & Hw & Hk & Hid).
    exists w. split; [done|]. split; [done|].
    destruct (item_keys_inv util w k Hk) as [|[rest Hs]]; eauto.
  - intros Hd%first_claim_Some_in. unfold deferred in Hd.
    apply list_elem_of_In, in_flat_map in Hd as (w & Hw & Hin).
    apply list_elem_of_In, item_first_words_inv in Hin as (-> & p1 & rest & Hs & _).
    exists w. split; [by apply list_elem_of_In|]. split; [done|]. eauto.
Qed.

(** X5. A freshly built table has at most four keys per catalog entry. *)
Theorem table_size (c : Client) (catalog : list CoinsListItem.t) :
  CoinsList c = Ok (Some catalog) →
  (size (cacheMap (NewCoinGecko util c)) ≤ 4 * length catalog)%nat.
Proof.
  intros Hc. rewrite (NewCoinGecko_cacheMap util c catalog Hc), catalog_pass_eq.
  cbn [fst snd].
  pose proof (commit_first_words_size (deferred catalog)
                (commit_first_words (immediate util catalog) ∅)) as H1.
  pose proof (commit_first_words_size (immediate util catalog) ∅) as H2.
  pose proof (offers_length util catalog) as H3.
  rewrite map_size_empty in H2. lia.
Qed.

(** X6. A first word that no entry stores during the catalog pass belongs,
    after the build, to the first entry that collected it as an alias; a
    key that no entry stores or collects is absent from the table. *)
Theorem first_word_alias_resolves (c : Client) (catalog : list CoinsListItem.t)
        (k : string) :
  CoinsList c = Ok (Some catalog) →
  Forall (fun e => k ∉ item_keys util e) catalog →
  (∀ (i : nat) (e : CoinsListItem.t) (p1 : string) (rest : list string),
     catalog !! i = Some e →
     strings.Split (strings.ToLower (CoinsListItem.Name e)) " " = k :: p1 :: rest →
     p1 ≠ "coin" →
     Forall (fun e' => first_claim k (item_first_words e') = None) (take i catalog) →
     cacheMap (NewCoinGecko util c) !! k = Some (CoinsListItem.ID e))
  ∧ (Forall (fun e => first_claim k (item_first_words e) = None) catalog →
     cacheMap (NewCoinGecko util c) !! k = None).
Proof.
  intros Hc Hout.
  assert (Hk : cacheMap (NewCoinGecko util c) !! k = first_claim k (deferred catalog)).
  { rewrite (table_lookup util c catalog k Hc), pass_lookup, catalog_pass_eq.
    by rewrite first_claim_immediate_none. }
  rewrite Hk. split.
  - intros i e p1 rest Hi Hs Hne Hpre.
    apply (first_claim_deferred catalog i e k Hi); [|done].
    unfold item_first_words. rewrite Hs.
    destruct (String.eqb_spec p1 "coin"); [done|]. simpl.
    by rewrite String.eqb_refl.
  - apply first_claim_deferred_none.
Qed.

End CacheTheorems.

(** A provider without a catalog. *)
Lemma NewCoinGecko_without_catalog_witness :
  coinNameToID spec_util.util (NewCoinGecko spec_util.util Samples.offline)
    "Bitcoin Cash" = "bitcoin-cash".
Proof.
  destruct (NewCoinGecko_without_catalog spec_util.util Samples.offline)
    as (_ & Hslug & _).
  - left. by exists "offline".
  - exact (Hslug "Bitcoin Cash").
Defined.

(** The catalog offers ["foo"] for another identifier; the old binding
    stays. *)
Lemma cacheCoinsIDList_keeps_bindings_witness :
  cacheMap (fst (cacheCoinsIDList spec_util.util Samples.primed)) !! "foo"
  = Some "old-foo".
Proof.
  apply (cacheCoinsIDList_keeps_bindings spec_util.util Samples.primed
           "foo" "old-foo").
  by vm_compute.
Defined.

Lemma table_provenance_witness :
  ∃ w : CoinsListItem.t,
    w ∈ Examples.bitcoin_cash_first ∧ CoinsListItem.ID w = "bitcoin-cash"
    ∧ ("bch" ∈ explicit_keys spec_util.util w
       ∨ ∃ p1 rest, strings.Split (strings.ToLower (CoinsListItem.Name w)) " "
                    = "bch" :: p1 :: rest).
Proof.
  apply (table_provenance spec_util.util
           (Examples.catalog_only Examples.bitcoin_cash_first)
           Examples.bitcoin_cash_first "bch" "bitcoin-cash" eq_refl).
  by vm_compute.
Defined.

Lemma table_size_witness :
  (size (cacheMap (NewCoinGecko spec_util.util
                     (Examples.catalog_only Examples.bitcoin_cash_first)))
   ≤ 4 * 2)%nat.
Proof.
  apply (table_size spec_util.util
           (Examples.catalog_only Examples.bitcoin_cash_first)
           Examples.bitcoin_cash_first eq_refl).
Defined.

(** With ["Bitcoin Cash"] alone in the catalog, ["bitcoin"] is its alias. *)
Lemma first_word_alias_resolves_witness :
  cacheMap (NewCoinGecko spec_util.util
              (Examples.catalog_only Samples.bitcoin_cash_alone)) !! "bitcoin"
  = Some "bitcoin-cash".
Proof.
  destruct (first_word_alias_resolves spec_util.util
              (Examples.catalog_only Samples.bitcoin_cash_alone)
              Samples.bitcoin_cash_alone "bitcoin" eq_refl) as (Halias & _).
  - constructor; [|constructor]. vm_compute.
    intros H. repeat (apply elem_of_cons in H as [H|H]; [discriminate|]).
    by apply elem_of_nil in H.
  - apply (Halias 0%nat (CoinsListItem.mk "bitcoin-cash" "BCH" "Bitcoin Cash")
                  "cash" [] eq_refl eq_refl).
    + discriminate.
    + constructor.
Defined.

(** ** The page loop against any provider *)

Lemma sleeps_from_zero (k : nat) :
  flat_map (fun i => if (0 <? i)%Z then [1%Z] else []) (pages_from 0 k)
  = repeat 1%Z (k - 1).
Proof.
  induction k as [|k IH]; [done|].
  rewrite pages_from_snoc, flat_map_app, IH. cbn [flat_map].
  rewrite app_nil_r. destruct k as [|k]; [done|].
  replace (0 <? 0 + Z.of_nat (S k))%Z with true by (symmetry; apply Z.ltb_lt; lia).
  replace (S (S k) - 1)%nat with (S k) by lia.
  replace (S k - 1)%nat with k by lia.
  symmetry. apply repeat_cons.
Qed.

Section LoopFacts.

Context (util : Util).

(** Every run of the loop is a number of successful iterations, followed or
    not by one failed request; without a failure it ends at the page
    limit. *)
Lemma page_loop_shape (s : Service) (convert : string) (fuel : nat) (i : Z) :
  ∃ (k : nat) (failed : bool),
    page_loop util s convert fuel i
    = flat_map (page_events util s convert) (pages_from i k)
        ++ (if failed
            then (if (0 <? i + Z.of_nat k)%Z then [EvSleep 1] else [])
                   ++ [EvCoinsMarket
                         (market_request util s convert (i + Z.of_nat k) [])]
            else [])
    ∧ (k + (if failed then 1 else 0) ≤ fuel)%nat
    ∧ (i + Z.of_nat (k + (if failed then 1 else 0)) ≤ Z.max i (maxPages s))%Z
    ∧ (∀ j : Z, (i ≤ j < i + Z.of_nat k)%Z →
         ∃ l, CoinsMarket (client s) (market_request util s convert j []) = Ok l)
    ∧ (failed = true →
       ∃ msg, CoinsMarket (client s)
                (market_request util s convert (i + Z.of_nat k) []) = Err msg)
    ∧ (failed = false → k = fuel ∨ (maxPages s ≤ i + Z.of_nat k)%Z).
Proof.
  revert i. induction fuel as [|fuel IH]; intros i.
  - exists 0%nat, false. simpl. split; [done|]. split; [lia|]. split; [lia|].
    split; [intros j; lia|]. split; [done|]. by left.
  - destruct (Z.ltb_spec i (maxPages s)) as [Hi|Hi].
    + destruct (CoinsMarket (client s) (market_request util s convert i []))
        as [l|msg] eqn:Hreq.
      * rewrite (page_loop_ok util s convert fuel i l Hi Hreq).
        destruct (IH (i + 1)%Z)
          as (k & failed & Htr & Hfuel & Hmax & Hoks & Herr & Hdone).
        exists (S k), failed. rewrite Htr, pages_from_S. cbn [flat_map].
        rewrite <- app_assoc.
        replace (i + Z.of_nat (S k))%Z with (i + 1 + Z.of_nat k)%Z by lia.
        split; [done|]. split; [lia|]. split; [lia|].
        split.
        { intros j Hj. destruct (Z.eq_dec j i) as [->|Hne]; [by eexists|].
          apply Hoks. lia. }
        split; [exact Herr|].
        intros Hf. destruct (Hdone Hf) as [->|Hend]; [by left|by right].
      * rewrite (page_loop_err util s convert fuel i msg Hi Hreq).
        exists 0%nat, true. simpl. rewrite Z.add_0_r.
        split; [done|]. split; [lia|]. split; [lia|].
        split; [intros j; lia|]. split; [by eexists|done].
    + rewrite page_loop_end by done.
      exists 0%nat, false. simpl.
      split; [done|]. split; [lia|]. split; [lia|].
      split; [intros j; lia|]. split; [done|]. right. lia.
Qed.

Lemma page_events_no_close (s : Service) (convert : string) (l : list Z) :
  EvClose ∉ flat_map (page_events util s convert) l.
Proof.
  intros Hin. apply list_elem_of_In, in_flat_map in Hin as (i & _ & Hin).
  unfold page_events in Hin.
  destruct (0 <? i)%Z; simpl in Hin; intuition discriminate.
Qed.

End LoopFacts.

Section MoreTheorems.

Context (util : Util).

(** X7. Against any provider the run of the goroutine of [GetAllCoinData]
    is a number [k] of successful iterations, then possibly one failed
    request, then the one close of the channel.  A successful iteration is,
    in this order, a pause of one second (left out before the first
    request), the request for the next page, and the send of that page's
    batch right after it; a failed request is preceded by its pause and
    followed by nothing but the close.  Pages are asked in the order 1, 2,
    ...; the requests number at most [maxPages]; without a failure all
    [maxPages] pages are fetched; and with [maxPages] zero or negative the
    channel is closed without a request. *)
Theorem GetAllCoinData_trace_invariants (s : Service) (convert : string) :
  (maxPages s < 2 ^ 63)%Z →
  (∃ (k : nat) (failed : bool),
     snd (GetAllCoinData util s convert)
     = flat_map
         (fun i => (if (0 <? i)%Z then [EvSleep 1] else [])
                     ++ [EvCoinsMarket (market_request util s convert i []);
                         EvSend (page_batch util s convert i)])
         (pages_from 0 k)
         ++ (if failed
             then (if (0 <? Z.of_nat k)%Z then [EvSleep 1] else [])
                    ++ [EvCoinsMarket
                          (market_request util s convert (Z.of_nat k) [])]
             else [])
         ++ [EvClose]
     ∧ (k + (if failed then 1 else 0) ≤ Z.to_nat (maxPages s))%nat
     ∧ (failed = false → k = Z.to_nat (maxPages s))
     ∧ (∀ j : Z, (0 ≤ j < Z.of_nat k)%Z →
          ∃ l, CoinsMarket (client s) (market_request util s convert j [])
               = Ok l)
     ∧ (failed = true →
        ∃ msg, CoinsMarket (client s)
                 (market_request util s convert (Z.of_nat k) []) = Err msg)
     ∧ map Request.page (requested (snd (GetAllCoinData util s convert)))
       = pages_from 1 (k + (if failed then 1 else 0))
     ∧ sent (snd (GetAllCoinData util s convert))
       = map (page_batch util s convert) (pages_from 0 k))
  ∧ (∃ body : list event,
       snd (GetAllCoinData util s convert) = body ++ [EvClose] ∧ EvClose ∉ body)
  ∧ (length (sent (snd (GetAllCoinData util s convert)))
     ≤ length (requested (snd (GetAllCoinData util s convert))))%nat
  ∧ (length (requested (snd (GetAllCoinData util s convert)))
     ≤ S (length (sent (snd (GetAllCoinData util s convert)))))%nat
  ∧ (length (requested (snd (GetAllCoinData util s convert)))
     ≤ Z.to_nat (maxPages s))%nat
  ∧ map Request.page (requested (snd (GetAllCoinData util s convert)))
    = pages_from 1 (length (requested (snd (GetAllCoinData util s convert))))
  ∧ sleeps (snd (GetAllCoinData util s convert))
    = repeat 1%Z (length (requested (snd (GetAllCoinData util s convert))) - 1)
  ∧ ((maxPages s ≤ 0)%Z → snd (GetAllCoinData util s convert) = [EvClose]).
Proof.
  intros Hint. unfold GetAllCoinData. cbn [snd].
  destruct (page_loop_shape util s convert (Z.to_nat (maxPages s)) 0)
    as (k & failed & Htr & Hfuel & Hmax & Hoks & Herr & Hdone).
  assert (Hlast : (maxPages s ≤ 0)%Z →
                  page_loop util s convert (Z.to_nat (maxPages s)) 0 ++ [EvClose]
                  = [EvClose]).
  { intros H. by rewrite page_loop_end. }
  rewrite Htr. rewrite Htr in Hlast.
  assert (Hsent : sent ((flat_map (page_events util s convert) (pages_from 0 k)
                           ++ (if failed
                               then (if (0 <? 0 + Z.of_nat k)%Z then [EvSleep 1] else [])
                                      ++ [EvCoinsMarket
                                            (market_request util s convert
                                               (0 + Z.of_nat k) [])]
                               else [])) ++ [EvClose])
                  = map (page_batch util s convert) (pages_from 0 k)).
  { rewrite !sent_app, sent_pages.
    destruct failed, (0 <? 0 + Z.of_nat k)%Z; simpl; by rewrite ?app_nil_r. }
  assert (Hreq : requested ((flat_map (page_events util s convert) (pages_from 0 k)
                               ++ (if failed
                                   then (if (0 <? 0 + Z.of_nat k)%Z
                                         then [EvSleep 1] else [])
                                          ++ [EvCoinsMarket
                                                (market_request util s convert
                                                   (0 + Z.of_nat k) [])]
                                   else [])) ++ [EvClose])
                 = map (fun i => market_request util s convert i [])
                       (pages_from 0 (k + (if failed then 1 else 0)))).
  { rewrite !requested_app, requested_pages.
    destruct failed.
    - replace (k + 1)%nat with (S k) by lia. rewrite pages_from_snoc, map_app.
      destruct (0 <? 0 + Z.of_nat k)%Z; simpl; by rewrite ?app_nil_r.
    - rewrite Nat.add_0_r. simpl. by rewrite !app_nil_r. }
  split.
  { exists k, failed. rewrite Hsent, Hreq.
    split.
    { rewrite <- app_assoc. by rewrite Z.add_0_l. }
    split; [lia|].
    split.
    { intros Hf. destruct (Hdone Hf) as [->|Hend]; [done|]. subst failed. lia. }
    split; [intros j Hj; apply Hoks; lia|].
    split.
    { intros Hf. destruct (Herr Hf) as [msg Hmsg]. exists msg.
      by rewrite Z.add_0_l in Hmsg. }
    split; [|done].
    rewrite map_map. apply request_pages. lia. }
  split.
  { eexists. split; [reflexivity|]. intros Hin.
    apply elem_of_app in Hin as [Hin|Hin].
    - by apply page_events_no_close in Hin.
    - destruct failed, (0 <? 0 + Z.of_nat k)%Z;
        repeat (apply elem_of_cons in Hin as [Hin|Hin]; [discriminate|]);
        by apply elem_of_nil in Hin. }
  rewrite Hsent, Hreq, !length_map, !pages_from_length.
  split; [lia|]. split; [destruct failed; lia|]. split; [lia|].
  split.
  { rewrite map_map. apply request_pages. lia. }
  split; [|exact Hlast].
  rewrite !sleeps_app, sleeps_pages, sleeps_from_zero.
  destruct failed.
  - replace (k + 1 - 1)%nat with k by lia. destruct k as [|k]; [done|].
    replace (0 <? 0 + Z.of_nat (S k))%Z with true by (symmetry; apply Z.ltb_lt; lia).
    simpl. rewrite app_nil_r, Nat.sub_0_r. symmetry. apply repeat_cons.
  - rewrite Nat.add_0_r. simpl. by rewrite !app_nil_r.
Qed.

(** X8. [GetCoinDataBatch] asks for page 1 with the service's page size and
    with every name resolved, in the order given; and [GetCoinData] is
    [GetCoinDataBatch] for the one name: the same request, and the first
    record of the batch, or the zero-value record when the batch is empty or
    the fetch fails. *)
Theorem GetCoinDataBatch_resolves_names (s : Service) (names : list string)
        (name convert : string) :
  (∃ r : Request.t,
     fst (GetCoinDataBatch util s names convert) = [EvCoinsMarket r]
     ∧ Request.ids r = map (coinNameToID util s) names
     ∧ length (Request.ids r) = length names
     ∧ Request.page r = 1%Z
     ∧ Request.perPage r = maxResultsPerPage s)
  ∧ fst (GetCoinData util s name convert)
    = fst (GetCoinDataBatch util s [name] convert)
  ∧ snd (GetCoinData util s name convert)
    = (match snd (snd (GetCoinDataBatch util s [name] convert)) with
       | None => hd Coin.zero (fst (snd (GetCoinDataBatch util s [name] convert)))
       | Some _ => Coin.zero
       end,
       snd (snd (GetCoinDataBatch util s [name] convert))).
Proof.
  split.
  - eexists. split; [reflexivity|]. cbn. by rewrite length_map.
  - unfold GetCoinData, GetCoinDataBatch, getPaginatedCoinData.
    by destruct (CoinsMarket (client s) _) as [[[|item items]|]|msg].
Qed.

(** X9. For a name the table knows, resolution does not depend on letter
    case or on surrounding white space, and neither does the link built from
    it. *)
Theorem resolution_ignores_case_and_padding (s : Service) (name1 name2 : string) :
  strings.ToLower (strings.TrimSpace name1)
  = strings.ToLower (strings.TrimSpace name2) →
  is_Some (cacheMap s !! strings.ToLower (strings.TrimSpace name1)) →
  coinNameToID util s name1 = coinNameToID util s name2
  ∧ CoinLink util s name1 = CoinLink util s name2
  ∧ CoinLink util s name1
    = String.append "https://www.coingecko.com/en/coins/" (coinNameToID util s name2).
Proof.
  intros Hnorm [id Hid].
  assert (H : coinNameToID util s name1 = coinNameToID util s name2).
  { unfold coinNameToID. by rewrite <- Hnorm, Hid. }
  unfold CoinLink. by rewrite H.
Qed.

(** X10. [Price] lower-cases the currency before the request and before
    formatting, so two spellings of a currency that differ only in case give
    the same request and the same result; an empty currency is requested as
    it is. *)
Theorem Price_currency_case (s : Service) (name convert1 convert2 : string) :
  strings.ToLower convert1 = strings.ToLower convert2 →
  Price util s name convert1 = Price util s name convert2
  ∧ fst (Price util s name "") = [EvSimplePrice [coinNameToID util s name] [""]].
Proof.
  intros H. unfold Price. by rewrite H.
Qed.

End MoreTheorems.

Lemma GetAllCoinData_trace_invariants_witness :
  (length (requested (snd (GetAllCoinData spec_util.util
                             (NewCoinGecko spec_util.util Samples.two_pages) "usd")))
   ≤ Z.to_nat 10)%nat
  ∧ sleeps (snd (GetAllCoinData spec_util.util
                   (NewCoinGecko spec_util.util Samples.two_pages) "usd"))
    = repeat 1%Z
        (length (requested (snd (GetAllCoinData spec_util.util
                                   (NewCoinGecko spec_util.util Samples.two_pages)
                                   "usd"))) - 1).
Proof.
  destruct (GetAllCoinData_trace_invariants spec_util.util
              (NewCoinGecko spec_util.util Samples.two_pages) "usd")
    as (_ & _ & _ & _ & Hmax & _ & Hsleeps & _).
  - reflexivity.
  - split; [exact Hmax | exact Hsleeps].
Defined.

Lemma resolution_ignores_case_and_padding_witness :
  coinNameToID spec_util.util
    (NewCoinGecko spec_util.util (Examples.catalog_only Examples.collision))
    " BTC"
  = coinNameToID spec_util.util
      (NewCoinGecko spec_util.util (Examples.catalog_only Examples.collision))
      "btc ".
Proof.
  apply (resolution_ignores_case_and_padding spec_util.util _ " BTC" "btc ").
  - reflexivity.
  - eexists. by vm_compute.
Defined.

Lemma Price_currency_case_witness :
  Price spec_util.util
    (NewCoinGecko spec_util.util (Examples.prices (Ok Examples.price_list)))
    "Bitcoin" "USD"
  = Price spec_util.util
      (NewCoinGecko spec_util.util (Examples.prices (Ok Examples.price_list)))
      "Bitcoin" "usd".
Proof.
  apply (Price_currency_case spec_util.util _ "Bitcoin" "USD" "usd").
  reflexivity.
Defined.

(** ** Market data and charts *)

Lemma series_points (points : option (list (float * float))) :
  Forall (fun point => length point = 2%nat) (series points).
Proof.
  destruct points as [items|]; simpl; [|constructor].
  apply Forall_map, Forall_forall. done.
Qed.

Section ChartTheorems.

Context (util : Util) (CalcDays : Z -> Z -> Z).

(** X11. [GetGlobalMarketData] looks the lower-cased currency up in the
    provider's maps: a currency the maps do not have gives the value [0] and
    no error; the count of active assets is always [0]; the bitcoin share
    does not depend on the currency; two spellings that differ only in case
    give the same result; and a failed request gives the zero-value record
    with the error. *)
Theorem GetGlobalMarketData_missing_currency (e : Endpoints)
        (convert convert2 : string) :
  (∀ market : Global.t,
     ClientGlobal e = Ok market →
     snd (GetGlobalMarketData e convert) = None
     ∧ (Global.TotalMarketCap market !! strings.ToLower convert = None →
        GlobalMarketData.TotalMarketCapUSD (fst (GetGlobalMarketData e convert))
        = 0%float)
     ∧ (Global.TotalVolume market !! strings.ToLower convert = None →
        GlobalMarketData.Total24HVolumeUSD (fst (GetGlobalMarketData e convert))
        = 0%float)
     ∧ (∀ v : float,
          Global.TotalMarketCap market !! strings.ToLower convert = Some v →
          GlobalMarketData.TotalMarketCapUSD (fst (GetGlobalMarketData e convert))
          = v)
     ∧ GlobalMarketData.ActiveAssets (fst (GetGlobalMarketData e convert)) = 0%Z
     ∧ GlobalMarketData.BitcoinPercentageOfMarketCap
         (fst (GetGlobalMarketData e convert))
       = GlobalMarketData.BitcoinPercentageOfMarketCap
           (fst (GetGlobalMarketData e convert2)))
  ∧ (∀ msg : string,
       ClientGlobal e = Err msg →
       GetGlobalMarketData e convert = (GlobalMarketData.zero, Some (ErrClient msg)))
  ∧ (strings.ToLower convert = strings.ToLower convert2 →
     GetGlobalMarketData e convert = GetGlobalMarketData e convert2).
Proof.
  unfold GetGlobalMarketData. split; [|split].
  - intros market ->. cbn. split; [done|].
    split; [by intros ->|]. split; [by intros ->|]. split; [by intros v ->|]. done.
  - by intros msg ->.
  - by intros ->.
Qed.

(** X12. [GetGlobalMarketGraphData] lower-cases the currency and turns the
    empty one into ["usd"] before its only use, so spellings that differ in
    case, and the empty string and ["usd"], give the same result; the volume
    series is always empty, and the market-capitalisation series has one
    two-number point per point of the provider's series. *)
Theorem GetGlobalMarketGraphData_currency (e : Endpoints)
        (convert1 convert2 : string) (start end_ : Z) :
  (strings.ToLower convert1 = strings.ToLower convert2
   ∨ (convert1 = "" ∧ strings.ToLower convert2 = "usd") →
   GetGlobalMarketGraphData CalcDays e convert1 start end_
   = GetGlobalMarketGraphData CalcDays e convert2 start end_)
  ∧ MarketGraph.VolumeUSD
      (fst (GetGlobalMarketGraphData CalcDays e convert1 start end_)) = []
  ∧ Forall (fun point => length point = 2%nat)
           (MarketGraph.MarketCapByAvailableSupply
              (fst (GetGlobalMarketGraphData CalcDays e convert1 start end_)))
  ∧ (∀ items : list (float * float),
       GlobalCharts e
         (if String.eqb (strings.ToLower convert1) "" then "usd"
          else strings.ToLower convert1)
         (Itoa (CalcDays start end_))
       = Ok (Chart.mk (Some items)) →
       snd (GetGlobalMarketGraphData CalcDays e convert1 start end_) = None
       ∧ length (MarketGraph.MarketCapByAvailableSupply
                   (fst (GetGlobalMarketGraphData CalcDays e convert1 start end_)))
         = length items).
Proof.
  unfold GetGlobalMarketGraphData. split; [|split; [|split]].
  - intros [-> | [-> ->]]; reflexivity.
  - by destruct (GlobalCharts e _ _).
  - destruct (GlobalCharts e _ _) as [chart|msg]; cbn; [|constructor].
    apply series_points.
  - intros items ->. cbn. by rewrite length_map.
Qed.

(** X13. [GetCoinGraphData] asks for the chart of the resolved name, in the
    currency as the caller wrote it and for the days between the two
    timestamps; the symbol it is given plays no part.  On success the price
    series has one two-number point per point of the chart, in order, and
    the three other series are empty; on failure the zero-value graph comes
    back with the error. *)
Theorem GetCoinGraphData_series (e : Endpoints) (s : Service)
        (convert symbol symbol2 name : string) (start end_ : Z) :
  GetCoinGraphData util CalcDays e s convert symbol name start end_
  = GetCoinGraphData util CalcDays e s convert symbol2 name start end_
  ∧ (∀ msg : string,
       CoinsIDMarketChart e (coinNameToID util s name) convert
         (Itoa (CalcDays start end_)) = Err msg →
       GetCoinGraphData util CalcDays e s convert symbol name start end_
       = (CoinGraph.zero, Some (ErrClient msg)))
  ∧ (∀ chart : Chart.t,
       CoinsIDMarketChart e (coinNameToID util s name) convert
         (Itoa (CalcDays start end_)) = Ok chart →
       snd (GetCoinGraphData util CalcDays e s convert symbol name start end_) = None
       ∧ CoinGraph.Price
           (fst (GetCoinGraphData util CalcDays e s convert symbol name start end_))
         = map (fun item => [fst item; snd item]) (default [] (Chart.points chart))
       ∧ CoinGraph.MarketCapByAvailableSupply
           (fst (GetCoinGraphData util CalcDays e s convert symbol name start end_)) = []
       ∧ CoinGraph.PriceBTC
           (fst (GetCoinGraphData util CalcDays e s convert symbol name start end_)) = []
       ∧ CoinGraph.Volume
           (fst (GetCoinGraphData util CalcDays e s convert symbol name start end_)) = [])
  ∧ Forall (fun point => length point = 2%nat)
           (CoinGraph.Price
              (fst (GetCoinGraphData util CalcDays e s convert symbol name start end_))).
Proof.
  unfold GetCoinGraphData. split; [done|]. split; [by intros msg ->|]. split.
  - intros chart ->. cbn. by destruct (Chart.points chart).
  - destruct (CoinsIDMarketChart e _ _ _) as [chart|msg]; cbn; [|constructor].
    apply series_points.
Qed.

End ChartTheorems.

(** X14. The list of supported currencies has fifty codes of three
    upper-case letters each, in strictly ascending order, as the comment in
    the source asks; so no code occurs twice. *)
Theorem SupportedCurrencies_sorted :
  length SupportedCurrencies = 50%nat
  ∧ forallb is_code SupportedCurrencies = true
  ∧ StronglySorted (fun a b => String.ltb a b = true) SupportedCurrencies
  ∧ NoDup SupportedCurrencies.
Proof.
  split; [reflexivity|]. split; [reflexivity|].
  assert (Hsorted : StronglySorted (fun a b => String.ltb a b = true)
                      SupportedCurrencies).
  { unfold SupportedCurrencies. repeat constructor. }
  split; [exact Hsorted|].
  clear -Hsorted. induction Hsorted as [|a l _ IH Hall]; constructor; [|done].
  intros Hin. rewrite List.Forall_forall in Hall.
  specialize (Hall a (proj1 (list_elem_of_In _ _) Hin)).
  unfold String.ltb in Hall.
  pose proof (String.compare_antisym a a) as Hanti.
  by destruct (String.compare a a).
Qed.

Lemma GetGlobalMarketData_missing_currency_witness :
  GlobalMarketData.TotalMarketCapUSD (fst (GetGlobalMarketData Samples.endpoints "JPY"))
  = 0%float
  ∧ GetGlobalMarketData Samples.endpoints "USD"
    = GetGlobalMarketData Samples.endpoints "usd".
Proof.
  destruct (GetGlobalMarketData_missing_currency Samples.endpoints "JPY" "jpy")
    as (Hok & _ & _).
  destruct (Hok Samples.global eq_refl) as (_ & Hcap & _).
  split.
  - apply Hcap. by vm_compute.
  - apply (GetGlobalMarketData_missing_currency Samples.endpoints "USD" "usd").
    reflexivity.
Defined.

Lemma GetGlobalMarketGraphData_currency_witness :
  GetGlobalMarketGraphData Samples.CalcDays Samples.endpoints "" 0 864000
  = GetGlobalMarketGraphData Samples.CalcDays Samples.endpoints "USD" 0 864000.
Proof.
  apply (GetGlobalMarketGraphData_currency Samples.CalcDays Samples.endpoints
           "" "USD" 0 864000).
  right. split; reflexivity.
Defined.

Lemma GetCoinGraphData_series_witness :
  length (CoinGraph.Price
            (fst (GetCoinGraphData spec_util.util Samples.CalcDays Samples.endpoints
                    (NewCoinGecko spec_util.util
                       (Examples.catalog_only Examples.bitcoin_cash_first))
                    "usd" "BTC" "Bitcoin" 0 864000)))
  = 2%nat
  ∧ GetCoinGraphData spec_util.util Samples.CalcDays Samples.endpoints
      (NewCoinGecko spec_util.util
         (Examples.catalog_only Examples.bitcoin_cash_first))
      "usd" "DOGE" "Dogecoin" 0 864000
    = (CoinGraph.zero, Some (ErrClient "not found")).
Proof.
  split.
  - destruct (GetCoinGraphData_series spec_util.util Samples.CalcDays
                Samples.endpoints
                (NewCoinGecko spec_util.util
                   (Examples.catalog_only Examples.bitcoin_cash_first))
                "usd" "BTC" "BTC" "Bitcoin" 0 864000) as (_ & _ & Hok & _).
    destruct (Hok (Chart.mk (Some [(1%float, 9000%float); (2%float, 9100%float)]))
                  eq_refl) as (_ & Hprice & _).
    rewrite Hprice. reflexivity.
  - apply (GetCoinGraphData_series spec_util.util Samples.CalcDays
             Samples.endpoints _ "usd" "DOGE" "DOGE" "Dogecoin" 0 864000).
    reflexivity.
Defined.

(** * Package [cointop] *)

(** ** Strings *)

Lemma length_append (a b : string) :
  String.length (String.append a b) = (String.length a + String.length b)%nat.
Proof. induction a as [|c a IH]; simpl; [done|]. by rewrite IH. Qed.

Lemma length_substring_0 (n : nat) (s : string) :
  (n ≤ String.length s)%nat → String.length (substring 0 n s) = n.
Proof.
  revert s. induction n as [|n IH]; intros s Hn.
  - by destruct s.
  - destruct s as [|c s]; simpl in *; [lia|]. rewrite IH; lia.
Qed.

Lemma is_space_lower_byte (c : ascii) :
  strings.is_space (strings.lower_byte c) = strings.is_space c.
Proof. destruct c as [[] [] [] [] [] [] [] []]; reflexivity. Qed.

Lemma ToLower_TrimLeft (s : string) :
  strings.ToLower (strings.TrimLeft s) = strings.TrimLeft (strings.ToLower s).
Proof.
  induction s as [|c r IH]; simpl; [done|].
  rewrite is_space_lower_byte. by destruct (strings.is_space c).
Qed.

Lemma ToLower_TrimRight (s : string) :
  strings.ToLower (strings.TrimRight s) = strings.TrimRight (strings.ToLower s).
Proof.
  induction s as [|c r IH]; simpl; [done|].
  rewrite <- IH, is_space_lower_byte.
  destruct (strings.TrimRight r) as [|c' r']; simpl; [|done].
  by destruct (strings.is_space c).
Qed.

Lemma ToLower_TrimSpace (s : string) :
  strings.ToLower (strings.TrimSpace s) = strings.TrimSpace (strings.ToLower s).
Proof. unfold strings.TrimSpace. by rewrite ToLower_TrimRight, ToLower_TrimLeft. Qed.

Lemma TrimLeft_no_lead (s : string) : cointop_reading.no_lead (strings.TrimLeft s).
Proof.
  induction s as [|c r IH]; simpl; [done|].
  destruct (strings.is_space c) eqn:E; [done|]. simpl. done.
Qed.

Lemma no_lead_TrimLeft (s : string) :
  cointop_reading.no_lead s → strings.TrimLeft s = s.
Proof. destruct s as [|c r]; simpl; [done|]. by intros ->. Qed.

Lemma no_lead_TrimRight (s : string) :
  cointop_reading.no_lead s → cointop_reading.no_lead (strings.TrimRight s).
Proof.
  destruct s as [|c r]; simpl; [done|]. intros Hc.
  destruct (strings.TrimRight r); simpl; [by rewrite Hc|done].
Qed.

Lemma TrimRight_idem (s : string) :
  strings.TrimRight (strings.TrimRight s) = strings.TrimRight s.
Proof.
  induction s as [|c r IH]; simpl; [done|].
  destruct (strings.TrimRight r) as [|c' r'] eqn:E.
  - destruct (strings.is_space c) eqn:Hc; simpl; [done|]. by rewrite Hc.
  - cbn [strings.TrimRight]. fold strings.TrimRight.
    change (match strings.TrimRight (String c' r') with
            | EmptyString => if strings.is_space c then EmptyString
                             else String c EmptyString
            | String a s0 => String c (String a s0)
            end = String c (String c' r')).
    by rewrite IH.
Qed.

Lemma TrimSpace_idem (s : string) :
  strings.TrimSpace (strings.TrimSpace s) = strings.TrimSpace s.
Proof.
  unfold strings.TrimSpace.
  rewrite (no_lead_TrimLeft (strings.TrimRight _)).
  - apply TrimRight_idem.
  - apply no_lead_TrimRight, TrimLeft_no_lead.
Qed.

Lemma lower_byte_ascii (c : ascii) :
  (nat_of_ascii c <? 128)%nat = true →
  (nat_of_ascii (strings.lower_byte c) <? 128)%nat = true.
Proof. destruct c as [[] [] [] [] [] [] [] []]; vm_compute; done. Qed.

Lemma is_ascii_ToLower (s : string) :
  is_ascii s = true → is_ascii (strings.ToLower s) = true.
Proof.
  induction s as [|c r IH]; simpl; [done|].
  intros [Hc Hr]%andb_prop. by rewrite (lower_byte_ascii c Hc), IH.
Qed.

Lemma is_ascii_TrimLeft (s : string) :
  is_ascii s = true → is_ascii (strings.TrimLeft s) = true.
Proof.
  induction s as [|c r IH]; simpl; [done|].
  intros H. destruct (strings.is_space c); [|done].
  apply andb_prop in H as [_ Hr]. by apply IH.
Qed.

Lemma is_ascii_TrimRight (s : string) :
  is_ascii s = true → is_ascii (strings.TrimRight s) = true.
Proof.
  induction s as [|c r IH]; simpl; [done|].
  intros [Hc Hr]%andb_prop. specialize (IH Hr).
  destruct (strings.TrimRight r) as [|c' r'].
  - destruct (strings.is_space c); simpl; [done|]. by rewrite Hc.
  - simpl in *. by rewrite Hc, IH.
Qed.

(** X15. On ASCII text, where Go's [strings.ToLower] and
    [strings.TrimSpace] act byte by byte, [Slugify] yields ASCII text that is
    exactly the key the resolver of the provider package looks up,
    lower-casing and trimming in either order; applying it twice is the same
    as applying it once; and a slugified name that the table knows resolves
    like the name itself. *)
Theorem Slugify_idempotent (util : Util) (svc : Service) (s : string) :
  is_ascii s = true →
  is_ascii (cointop.Slugify s) = true
  ∧ cointop.Slugify s = strings.ToLower (strings.TrimSpace s)
  ∧ cointop.Slugify (cointop.Slugify s) = cointop.Slugify s
  ∧ (is_Some (cacheMap svc !! cointop.Slugify s) →
     coinNameToID util svc (cointop.Slugify s) = coinNameToID util svc s).
Proof.
  intros Hascii. unfold cointop.Slugify.
  assert (Hkey : strings.TrimSpace (strings.ToLower s)
                 = strings.ToLower (strings.TrimSpace s))
    by (symmetry; apply ToLower_TrimSpace).
  assert (Hidem : strings.TrimSpace (strings.ToLower
                    (strings.TrimSpace (strings.ToLower s)))
                  = strings.TrimSpace (strings.ToLower s)).
  { by rewrite (ToLower_TrimSpace (strings.ToLower s)), TrimSpace_idem, ToLower_idem. }
  split.
  { unfold strings.TrimSpace.
    by apply is_ascii_TrimRight, is_ascii_TrimLeft, is_ascii_ToLower. }
  split; [exact Hkey|]. split; [exact Hidem|].
  intros [id Hid]. unfold coinNameToID.
  rewrite ToLower_TrimSpace, Hidem, <- Hkey. by rewrite Hid.
Qed.

(** X16. With room for the dots ([maxLen] at least 3) [TruncateString] does
    not panic and its result is never longer than [maxLen] bytes: a value
    that fits comes back as it is, a longer one as its first [maxLen - 3]
    bytes followed by three dots, [maxLen] bytes in all. *)
Theorem TruncateString_fits (value : string) (maxLen : Z) :
  (3 ≤ maxLen < 2 ^ 63)%Z →
  ∃ r : string,
    cointop.TruncateString value maxLen = Some r
    ∧ Z.of_nat (String.length r) = Z.min (Z.of_nat (String.length value)) maxLen
    ∧ ((Z.of_nat (String.length value) ≤ maxLen)%Z → r = value)
    ∧ ((maxLen < Z.of_nat (String.length value))%Z →
       r = String.append (substring 0 (Z.to_nat (maxLen - 3)) value) "...").
Proof.
  intros Hmax. unfold cointop.TruncateString.
  rewrite (wrap_int_small (maxLen - 3)) by lia.
  destruct (Z.ltb_spec maxLen (Z.of_nat (String.length value))) as [Hlong|Hfits].
  - replace (0 <=? maxLen - 3)%Z with true by (symmetry; apply Z.leb_le; lia).
    replace (maxLen - 3 <=? Z.of_nat (String.length value))%Z with true
      by (symmetry; apply Z.leb_le; lia).
    eexists. split; [reflexivity|]. split; [|split; [lia|done]].
    rewrite length_append, length_substring_0 by lia. simpl. lia.
  - exists value. split; [done|]. split; [lia|]. split; [done|lia].
Qed.

(** X17. With no room for the dots ([maxLen] below 3) [TruncateString]
    panics exactly when the value is longer than [maxLen]: its slice bound
    [maxLen - 3] is then out of range. *)
Theorem TruncateString_panics (value : string) (maxLen : Z) :
  (- 2 ^ 63 ≤ maxLen < 3)%Z →
  (Z.of_nat (String.length value) < 2 ^ 63 - 3)%Z →
  cointop.TruncateString value maxLen = None
  ↔ (maxLen < Z.of_nat (String.length value))%Z.
Proof.
  intros Hmax Hlen. unfold cointop.TruncateString.
  destruct (Z.ltb_spec maxLen (Z.of_nat (String.length value))) as [Hlong|Hfits].
  - split; [done|]. intros _.
    destruct (Z_lt_le_dec (maxLen - 3) (- 2 ^ 63)) as [Hwrap|Hno].
    + assert (Hhi : wrap_int (maxLen - 3) = (maxLen - 3 + 2 ^ 64)%Z).
      { unfold wrap_int.
        replace ((maxLen - 3 + 2 ^ 63) mod 2 ^ 64)%Z
          with (maxLen - 3 + 2 ^ 63 + 2 ^ 64)%Z; [lia|].
        apply Z.mod_unique with (q := (-1)%Z); lia. }
      rewrite Hhi.
      replace (maxLen - 3 + 2 ^ 64 <=? Z.of_nat (String.length value))%Z
        with false by (symmetry; apply Z.leb_gt; lia).
      by rewrite andb_false_r.
    + rewrite wrap_int_small by lia.
      by replace (0 <=? maxLen - 3)%Z with false by (symmetry; apply Z.leb_gt; lia).
  - split; [done|lia].
Qed.

Lemma TruncateString_fits_witness :
  cointop.TruncateString "hello world" 8 = Some "hello...".
Proof.
  destruct (TruncateString_fits "hello world" 8) as (r & Hr & _ & _ & Hlong);
    [lia|].
  rewrite Hr. f_equal. apply Hlong. simpl. lia.
Defined.

Lemma TruncateString_panics_witness :
  cointop.TruncateString "hello" 2 = None.
Proof.
  apply (TruncateString_panics "hello" 2); [lia | simpl; lia | simpl; lia].
Defined.

Lemma Slugify_idempotent_witness :
  coinNameToID spec_util.util
    (NewCoinGecko spec_util.util (Examples.catalog_only Examples.collision))
    (cointop.Slugify "  BitCoin ")
  = coinNameToID spec_util.util
      (NewCoinGecko spec_util.util (Examples.catalog_only Examples.collision))
      "  BitCoin ".
Proof.
  apply (Slugify_idempotent spec_util.util _ "  BitCoin ").
  - reflexivity.
  - eexists. by vm_compute.
Defined.

(** ** Numbers in text *)

Lemma append_empty_r (s : string) : String.append s "" = s.
Proof.
  induction s as [|c s IH]; [done|].
  change (String c (String.append s "") = String c s). by rewrite IH.
Qed.

Lemma digits_all (s : string) : cointop_reading.all_digits (cointop.digits s) = true.
Proof.
  induction s as [|c r IH]; simpl; [done|].
  destruct (cointop.is_digit c) eqn:E; simpl; [by rewrite E|done].
Qed.

Lemma digits_app (d rest : string) :
  cointop_reading.all_digits d = true →
  cointop.digits (String.append d rest) = String.append d (cointop.digits rest)
  ∧ cointop.after_digits (String.append d rest) = cointop.after_digits rest.
Proof.
  induction d as [|c d IH]; simpl; [done|].
  intros [Hc Hd]%andb_prop. rewrite Hc.
  destruct (IH Hd) as [-> ->]. done.
Qed.

Lemma digits_of_all (d : string) :
  cointop_reading.all_digits d = true →
  cointop.digits d = d ∧ cointop.after_digits d = "".
Proof.
  intros Hd. destruct (digits_app d "" Hd) as [H1 H2].
  rewrite append_empty_r in H1, H2. simpl in H1, H2.
  by rewrite append_empty_r in H1.
Qed.

Lemma digits_no_digit (s : string) :
  cointop_reading.has_digit s = false → cointop.digits s = "".
Proof.
  destruct s as [|c r]; simpl; [done|].
  intros [-> _]%orb_false_elim. done.
Qed.

Lemma match_here_float (s m : string) :
  cointop.match_here s = Some m → cointop_reading.float_text m.
Proof.
  destruct s as [|c r]; [done|]. unfold cointop.match_here.
  destruct (cointop.is_digit c) eqn:Hc.
  - assert (Hd : cointop.digits (String c r) ≠ "") by (simpl; by rewrite Hc).
    assert (Hwhole : cointop_reading.float_text (cointop.digits (String c r))).
    { exists (cointop.digits (String c r)), "".
      split; [apply digits_all|]. split; [done|]. by left. }
    destruct (cointop.after_digits (String c r)) as [|c1 r'].
    { by intros [= <-]. }
    destruct (Ascii.eqb_spec c1 ".") as [->|Hne].
    + destruct (cointop.digits r') as [|c2 f] eqn:Hf.
      * by intros [= <-].
      * intros [= <-]. exists (cointop.digits (String c r)), (String c2 f).
        split; [apply digits_all|]. split; [rewrite <- Hf; apply digits_all|].
        by right.
    + intros H. assert (m = cointop.digits (String c r)) as ->; [|done].
      destruct c1 as [[] [] [] [] [] [] [] []]; try (by injection H); done.
  - destruct (Ascii.eqb c "."); [|done].
    destruct (cointop.digits r) as [|c2 f] eqn:Hf; [done|].
    intros [= <-]. exists "", (String c2 f).
    split; [done|]. split; [rewrite <- Hf; apply digits_all|]. by right.
Qed.

Lemma match_here_fixed (m : string) :
  cointop_reading.float_text m → cointop.match_here m = Some m.
Proof.
  intros (d & f & Hd & Hf & [[-> Hne]|[-> Hne]]).
  - destruct d as [|c d]; [done|]. unfold cointop.match_here.
    destruct (digits_of_all (String c d) Hd) as [-> ->].
    simpl in Hd. apply andb_prop in Hd as [-> _]. done.
  - destruct (digits_of_all f Hf) as [Hdf _].
    destruct d as [|c d].
    + simpl. rewrite Hdf. by destruct f.
    + destruct (digits_app (String c d) (String "." f) Hd) as [H1 H2].
      change (String.append (String c d) (String "." f))
        with (String c (String.append d (String "." f))) in *.
      unfold cointop.match_here.
      simpl in Hd. apply andb_prop in Hd as [Hc _].
      rewrite Hc, H2, H1.
      change (cointop.after_digits (String "." f)) with (String "." f).
      change (cointop.digits (String "." f)) with "".
      cbv beta iota. rewrite Hdf. destruct f as [|c2 f]; [done|].
      by rewrite append_empty_r.
Qed.

Lemma find_match_float (s m : string) :
  cointop.find_match s = Some m → cointop_reading.float_text m.
Proof.
  induction s as [|c r IH]; [done|].
  cbn [cointop.find_match].
  destruct (cointop.match_here (String c r)) as [m'|] eqn:E.
  - intros [= ->]. by eapply match_here_float.
  - exact IH.
Qed.

Lemma find_match_no_digit (s : string) :
  cointop_reading.has_digit s = false → cointop.find_match s = None.
Proof.
  induction s as [|c r IH]; [done|].
  cbn [cointop_reading.has_digit]. intros [Hc Hr]%orb_false_elim.
  cbn [cointop.find_match].
  assert (cointop.match_here (String c r) = None) as ->.
  { unfold cointop.match_here. rewrite Hc, (digits_no_digit r Hr).
    by destruct (Ascii.eqb c "."). }
  by apply IH.
Qed.

Lemma find_match_digit (s : string) :
  cointop_reading.has_digit s = true → is_Some (cointop.find_match s).
Proof.
  induction s as [|c r IH]; [done|].
  cbn [cointop_reading.has_digit cointop.find_match].
  destruct (cointop.match_here (String c r)) as [m|] eqn:E; [by eexists|].
  destruct (cointop.is_digit c) eqn:Hc; [|exact IH].
  exfalso. unfold cointop.match_here in E. rewrite Hc in E.
  destruct (cointop.after_digits (String c r)) as [|c1 r']; [done|].
  destruct c1 as [[] [] [] [] [] [] [] []]; try done.
  by destruct (cointop.digits r').
Qed.

(** X18. [normalizeFloatString] returns the empty string exactly for inputs
    without a digit; otherwise it returns a number: digits, or digits
    (possibly none) followed by a point and at least one digit.  Normalising
    a result again gives the same text. *)
Theorem normalizeFloatString_number (input : string) :
  (cointop_reading.has_digit input = false → cointop.normalizeFloatString input = "")
  ∧ (cointop_reading.has_digit input = true →
     cointop_reading.float_text (cointop.normalizeFloatString input))
  ∧ cointop.normalizeFloatString (cointop.normalizeFloatString input)
    = cointop.normalizeFloatString input.
Proof.
  unfold cointop.normalizeFloatString at 1 2 4 5. split; [|split].
  - intros H. by rewrite find_match_no_digit.
  - intros H. destruct (find_match_digit input H) as [m Hm]. rewrite Hm.
    by eapply find_match_float.
  - destruct (cointop.find_match input) as [m|] eqn:E; [|done].
    apply find_match_float, match_here_fixed in E.
    unfold cointop.normalizeFloatString.
    destruct m as [|c m]; [done|]. cbn [cointop.find_match]. by rewrite E.
Qed.

Lemma normalizeFloatString_number_witness :
  cointop.normalizeFloatString "price: $12.50 USD" = "12.50"
  ∧ cointop.normalizeFloatString "n/a" = "".
Proof.
  split; [reflexivity|].
  apply (proj1 (normalizeFloatString_number "n/a")). reflexivity.
Defined.

(** ** Paging and row lookup *)

(** X19. With a positive page size, a list count within [int] and a product
    that does not overflow, [SetPage] moves to page [p] exactly when [p] is
    not negative and its first row exists ([p * perPage < listCount]);
    otherwise the state is left alone.  It returns the page it leaves, never
    changes the page size, and keeps the page between [0] and
    [TotalPages]. *)
Theorem SetPage_keeps_page_in_range (listCount : Z) (st : cointop.PageState) (p : Z) :
  (0 < cointop.perPage st)%Z →
  (0 ≤ listCount < 2 ^ 63)%Z →
  (- 2 ^ 63 ≤ p * cointop.perPage st < 2 ^ 63)%Z →
  snd (cointop.SetPage listCount st p)
  = cointop.page (fst (cointop.SetPage listCount st p))
  ∧ cointop.perPage (fst (cointop.SetPage listCount st p)) = cointop.perPage st
  ∧ ((0 ≤ p)%Z ∧ (p * cointop.perPage st < listCount)%Z →
     cointop.page (fst (cointop.SetPage listCount st p)) = p)
  ∧ ((p < 0)%Z ∨ (listCount ≤ p * cointop.perPage st)%Z →
     fst (cointop.SetPage listCount st p) = st)
  ∧ ((0 ≤ cointop.page st ≤ Z.quot listCount (cointop.perPage st))%Z →
     (0 ≤ cointop.page (fst (cointop.SetPage listCount st p))
      ≤ Z.quot listCount (cointop.perPage st))%Z
     ∧ cointop.TotalPages listCount (fst (cointop.SetPage listCount st p))
       = Some (Z.quot listCount (cointop.perPage st))).
Proof.
  intros Hper Hcount Hprod. unfold cointop.SetPage.
  rewrite wrap_int_small by lia.
  assert (Htotal : ∀ st' : cointop.PageState,
             cointop.perPage st' = cointop.perPage st →
             cointop.TotalPages listCount st'
             = Some (Z.quot listCount (cointop.perPage st))).
  { intros st' Hst'. unfold cointop.TotalPages. rewrite Hst'.
    replace (cointop.perPage st =? 0)%Z with false by (symmetry; apply Z.eqb_neq; lia).
    rewrite wrap_int_small; [done|].
    rewrite Z.quot_div_nonneg by lia.
    pose proof (Z.div_pos listCount (cointop.perPage st)).
    pose proof (Z.div_le_upper_bound listCount (cointop.perPage st) listCount).
    nia. }
  destruct (Z.ltb_spec (p * cointop.perPage st) listCount) as [Hlt|Hge];
    destruct (Z.leb_spec 0 p) as [Hp|Hp]; cbn [andb fst snd cointop.page cointop.perPage].
  - split; [done|]. split; [done|]. split; [done|]. split; [lia|].
    intros Hin. split; [|by apply Htotal].
    split; [done|]. rewrite Z.quot_div_nonneg by lia.
    apply Z.div_le_lower_bound; lia.
  - split; [done|]. split; [done|]. split; [lia|]. split; [done|].
    intros Hin. split; [done|]. by apply Htotal.
  - split; [done|]. split; [done|]. split; [lia|]. split; [done|].
    intros Hin. split; [done|]. by apply Htotal.
  - split; [done|]. split; [done|]. split; [lia|]. split; [done|].
    intros Hin. split; [done|]. by apply Htotal.
Qed.

Lemma coin_index_from_found (i : Z) (coins : list positive) (coin : positive) :
  coin ∈ coins →
  ∃ n : nat,
    cointop.coin_index_from i coins coin = (i + Z.of_nat n)%Z
    ∧ coins !! n = Some coin
    ∧ coin ∉ take n coins.
Proof.
  revert i. induction coins as [|v rest IH]; intros i Hin.
  - by apply elem_of_nil in Hin.
  - simpl. destruct (Pos.eqb_spec v coin) as [->|Hne].
    + exists 0%nat. split; [lia|]. split; [done|]. simpl. apply not_elem_of_nil.
    + apply elem_of_cons in Hin as [->|Hin]; [done|].
      destruct (IH (i + 1)%Z Hin) as (n & Hidx & Hn & Hbefore).
      exists (S n). split; [lia|]. split; [done|]. simpl.
      apply not_elem_of_cons. split; [done|done].
Qed.

Lemma coin_index_from_absent (i : Z) (coins : list positive) (coin : positive) :
  coin ∉ coins → cointop.coin_index_from i coins coin = 0%Z.
Proof.
  revert i. induction coins as [|v rest IH]; intros i Hout; [done|].
  apply not_elem_of_cons in Hout as [Hne Hout]. simpl.
  destruct (Pos.eqb_spec v coin) as [->|_]; [done|]. by apply IH.
Qed.

(** X20. [GetCoinRowIndex] returns the position of the first occurrence of
    the coin in the list; for a coin that is not in the list it returns [0],
    the position of the first row. *)
Theorem GetCoinRowIndex_first_occurrence (coins : list positive) (coin : positive) :
  (coin ∈ coins →
   ∃ n : nat,
     cointop.GetCoinRowIndex coins coin = Z.of_nat n
     ∧ coins !! n = Some coin
     ∧ coin ∉ take n coins)
  ∧ (coin ∉ coins → cointop.GetCoinRowIndex coins coin = 0%Z).
Proof.
  unfold cointop.GetCoinRowIndex. split.
  - intros Hin. destruct (coin_index_from_found 0 coins coin Hin) as (n & H & ?).
    exists n. by rewrite H.
  - apply coin_index_from_absent.
Qed.

Lemma SetPage_keeps_page_in_range_witness :
  cointop.page (fst (cointop.SetPage 250 {| cointop.page := 0; cointop.perPage := 100 |} 2))
  = 2%Z
  ∧ fst (cointop.SetPage 250 {| cointop.page := 0; cointop.perPage := 100 |} 3)
    = {| cointop.page := 0; cointop.perPage := 100 |}.
Proof.
  split.
  - apply (SetPage_keeps_page_in_range 250
             {| cointop.page := 0; cointop.perPage := 100 |} 2);
      simpl; lia.
  - apply (SetPage_keeps_page_in_range 250
             {| cointop.page := 0; cointop.perPage := 100 |} 3);
      simpl; lia.
Defined.

Lemma GetCoinRowIndex_first_occurrence_witness :
  cointop.GetCoinRowIndex [5; 7; 9; 7]%positive 4%positive = 0%Z
  ∧ ∃ n : nat,
      cointop.GetCoinRowIndex [5; 7; 9; 7]%positive 7%positive = Z.of_nat n
      ∧ [5; 7; 9; 7]%positive !! n = Some 7%positive
      ∧ 7%positive ∉ take n [5; 7; 9; 7]%positive.
Proof.
  split.
  - apply (GetCoinRowIndex_first_occurrence [5; 7; 9; 7]%positive 4%positive).
    intros H. repeat (apply elem_of_cons in H as [H|H]; [discriminate|]).
    by apply elem_of_nil in H.
  - apply (GetCoinRowIndex_first_occurrence [5; 7; 9; 7]%positive 7%positive).
    apply elem_of_cons. right. apply elem_of_cons. by left.
Defined.

(** ** Cleaning the cache directory *)

Lemma removed_app (t1 t2 : list cointop.fs_event) :
  cointop_reading.removed (t1 ++ t2)
  = cointop_reading.removed t1 ++ cointop_reading.removed t2.
Proof. induction t1 as [|[] t1 IH]; simpl; by rewrite ?IH. Qed.

Lemma printed_app (t1 t2 : list cointop.fs_event) :
  cointop_reading.printed (t1 ++ t2)
  = cointop_reading.printed t1 ++ cointop_reading.printed t2.
Proof. induction t1 as [|[] t1 IH]; simpl; by rewrite ?IH. Qed.

(** The loop removes a front part of the cache files of the directory. *)
Lemma clean_files_removed (fsys : cointop.FS) (log : bool) (dir : string)
      (files : list string) (cleaned : bool) :
  ∃ rest : list string,
    map (cointop_reading.cache_file dir)
        (List.filter (String.prefix "fcache.") files)
    = cointop_reading.removed (fst (cointop.clean_files fsys log dir files cleaned))
        ++ rest.
Proof.
  revert cleaned. induction files as [|name files IH]; intros cleaned.
  - by exists [].
  - cbn [cointop.clean_files List.filter].
    destruct (String.prefix "fcache." name); [|apply IH].
    fold (cointop_reading.cache_file dir name). cbn [map].
    destruct (cointop.Remove fsys (cointop_reading.cache_file dir name)) as [msg|].
    + eexists. cbn [fst]. rewrite removed_app.
      destruct log; simpl; reflexivity.
    + destruct (IH true) as [rest Hrest].
      destruct (cointop.clean_files fsys log dir files true) as [tr out].
      exists rest. cbn [fst] in *. rewrite Hrest.
      destruct log; reflexivity.
Qed.

Lemma clean_files_all_removed (fsys : cointop.FS) (log : bool) (dir : string)
      (files : list string) (cleaned : bool) :
  (∀ name, name ∈ files →
     cointop.Remove fsys (cointop_reading.cache_file dir name) = None) →
  cointop_reading.removed (fst (cointop.clean_files fsys log dir files cleaned))
  = map (cointop_reading.cache_file dir)
        (List.filter (String.prefix "fcache.") files)
  ∧ snd (snd (cointop.clean_files fsys log dir files cleaned)) = None.
Proof.
  revert cleaned. induction files as [|name files IH]; intros cleaned Hok; [done|].
  cbn [cointop.clean_files List.filter].
  assert (Hrest : ∀ n, n ∈ files →
            cointop.Remove fsys (cointop_reading.cache_file dir n) = None).
  { intros n Hn. apply Hok, elem_of_cons. by right. }
  destruct (String.prefix "fcache." name); [|by apply IH].
  fold (cointop_reading.cache_file dir name).
  rewrite (Hok name) by (apply elem_of_cons; by left).
  destruct (IH true Hrest) as [Hrem Herr].
  destruct (cointop.clean_files fsys log dir files true) as [tr out].
  cbn [fst snd map] in *. rewrite removed_app, <- Hrem.
  split; [by destruct log|done].
Qed.

Lemma clean_files_stops (fsys : cointop.FS) (log : bool) (dir : string)
      (pre post : list string) (name msg : string) (cleaned : bool) :
  (∀ n, n ∈ pre → String.prefix "fcache." n = true →
     cointop.Remove fsys (cointop_reading.cache_file dir n) = None) →
  String.prefix "fcache." name = true →
  cointop.Remove fsys (cointop_reading.cache_file dir name) = Some msg →
  cointop_reading.removed
    (fst (cointop.clean_files fsys log dir (pre ++ name :: post) cleaned))
  = map (cointop_reading.cache_file dir)
        (List.filter (String.prefix "fcache.") pre)
      ++ [cointop_reading.cache_file dir name]
  ∧ snd (snd (cointop.clean_files fsys log dir (pre ++ name :: post) cleaned))
    = Some msg.
Proof.
  intros Hpre Hname Hfail. revert cleaned.
  induction pre as [|n pre IH]; intros cleaned.
  - cbn [app cointop.clean_files List.filter map]. rewrite Hname.
    fold (cointop_reading.cache_file dir name). rewrite Hfail.
    cbn [fst snd]. rewrite removed_app. by destruct log.
  - assert (Hrest : ∀ n', n' ∈ pre → String.prefix "fcache." n' = true →
              cointop.Remove fsys (cointop_reading.cache_file dir n') = None).
    { intros n' Hn'. apply Hpre, elem_of_cons. by right. }
    cbn [app cointop.clean_files List.filter].
    destruct (String.prefix "fcache." n) eqn:Hn; [|by apply IH].
    fold (cointop_reading.cache_file dir n).
    rewrite (Hpre n) by (done || apply elem_of_cons; by left).
    destruct (IH Hrest true) as [Hrem Herr].
    destruct (cointop.clean_files fsys log dir (pre ++ name :: post) true)
      as [tr out].
    cbn [fst snd map] in *. split; [|done].
    rewrite removed_app. cbn [cointop_reading.removed]. rewrite Hrem.
    by destruct log.
Qed.

Lemma clean_files_quiet (fsys : cointop.FS) (dir : string) (files : list string)
      (cleaned : bool) :
  cointop_reading.printed (fst (cointop.clean_files fsys false dir files cleaned)) = [].
Proof.
  revert cleaned. induction files as [|name files IH]; intros cleaned; [done|].
  cbn [cointop.clean_files].
  destruct (String.prefix "fcache." name); [|apply IH].
  destruct (cointop.Remove fsys _); [done|].
  specialize (IH true).
  destruct (cointop.clean_files fsys false dir files true) as [tr out].
  exact IH.
Qed.

Section CleanTheorems.

Context (DefaultCacheDir : string) (NormalizePath : string -> string).

Lemma Clean_unfold (fsys : cointop.FS) (config : option cointop.CleanConfig) :
  cointop.Clean DefaultCacheDir NormalizePath fsys config
  = let dir := cointop_reading.cache_dir DefaultCacheDir NormalizePath config in
    let log := match config with Some cfg => cointop.Log cfg | None => false end in
    let '(tr, (cleaned, err)) :=
      if negb (cointop.stat_not_exist fsys dir) then
        match cointop.ReadDir fsys dir with
        | Err msg => ([], (false, Some msg))
        | Ok files => cointop.clean_files fsys log dir files false
        end
      else ([], (false, None)) in
    match err with
    | Some e => (tr, Some e)
    | None =>
        (tr ++ (if log && cleaned
                then [cointop.FsPrint (String.append "cointop cache has been cleaned"
                                         (String "010" ""))]
                else []),
         None)
    end.
Proof. by destruct config. Qed.

(** X21. [Clean] removes nothing but entries of the cache directory whose
    name starts with ["fcache."], each once and in directory order.  When
    the directory does not exist it does nothing; when it cannot be read the
    error comes back and nothing is removed; when every removal succeeds all
    those entries are removed and [nil] is returned; and without the log
    option nothing is printed. *)
Theorem Clean_removes_cache_files (fsys : cointop.FS)
        (config : option cointop.CleanConfig) :
  (∀ files : list string,
     cointop.stat_not_exist fsys
       (cointop_reading.cache_dir DefaultCacheDir NormalizePath config) = false →
     cointop.ReadDir fsys
       (cointop_reading.cache_dir DefaultCacheDir NormalizePath config) = Ok files →
     (∃ rest : list string,
        map (cointop_reading.cache_file
               (cointop_reading.cache_dir DefaultCacheDir NormalizePath config))
            (List.filter (String.prefix "fcache.") files)
        = cointop_reading.removed
            (fst (cointop.Clean DefaultCacheDir NormalizePath fsys config)) ++ rest)
     ∧ ((∀ name, name ∈ files →
           cointop.Remove fsys
             (cointop_reading.cache_file
                (cointop_reading.cache_dir DefaultCacheDir NormalizePath config)
                name) = None) →
        cointop_reading.removed
          (fst (cointop.Clean DefaultCacheDir NormalizePath fsys config))
        = map (cointop_reading.cache_file
                 (cointop_reading.cache_dir DefaultCacheDir NormalizePath config))
              (List.filter (String.prefix "fcache.") files)
        ∧ snd (cointop.Clean DefaultCacheDir NormalizePath fsys config) = None))
  ∧ (cointop.stat_not_exist fsys
       (cointop_reading.cache_dir DefaultCacheDir NormalizePath config) = true →
     cointop.Clean DefaultCacheDir NormalizePath fsys config = ([], None))
  ∧ (∀ msg : string,
       cointop.stat_not_exist fsys
         (cointop_reading.cache_dir DefaultCacheDir NormalizePath config) = false →
       cointop.ReadDir fsys
         (cointop_reading.cache_dir DefaultCacheDir NormalizePath config) = Err msg →
       cointop.Clean DefaultCacheDir NormalizePath fsys config = ([], Some msg))
  ∧ (match config with Some cfg => cointop.Log cfg | None => false end = false →
     cointop_reading.printed
       (fst (cointop.Clean DefaultCacheDir NormalizePath fsys config)) = []).
Proof.
  rewrite Clean_unfold. cbv zeta.
  set (dir := cointop_reading.cache_dir DefaultCacheDir NormalizePath config).
  set (log := match config with Some cfg => cointop.Log cfg | None => false end).
  split; [|split; [|split]].
  - intros files -> ->. cbn [negb].
    split.
    + destruct (clean_files_removed fsys log dir files false) as [rest Hrest].
      exists rest. rewrite Hrest.
      destruct (cointop.clean_files fsys log dir files false) as [tr [cleaned [e|]]];
        cbn [fst]; [done|].
      rewrite removed_app. destruct (log && cleaned); simpl; by rewrite ?app_nil_r.
    + intros Hok.
      destruct (clean_files_all_removed fsys log dir files false Hok) as [Hrem Herr].
      destruct (cointop.clean_files fsys log dir files false) as [tr [cleaned err]].
      cbn [fst snd] in *. subst err. cbn [fst snd]. split; [|done].
      rewrite removed_app, Hrem. destruct (log && cleaned); simpl; by rewrite ?app_nil_r.
  - intros ->. by destruct log.
  - by intros msg -> ->.
  - intros ->.
    destruct (negb (cointop.stat_not_exist fsys dir)); [|done].
    destruct (cointop.ReadDir fsys dir) as [files|msg]; [|done].
    pose proof (clean_files_quiet fsys dir files false) as Hquiet.
    destruct (cointop.clean_files fsys false dir files false) as [tr [cleaned [e|]]];
      cbn [fst] in *; [done|].
    rewrite printed_app, Hquiet. done.
Qed.

(** X22. [Clean] stops at the first cache file it cannot remove: the error
    of that removal comes back, the cache files before it have been removed,
    and no entry after it is touched. *)
Theorem Clean_stops_at_first_failure (fsys : cointop.FS)
        (config : option cointop.CleanConfig)
        (pre post : list string) (name msg : string) :
  cointop.stat_not_exist fsys
    (cointop_reading.cache_dir DefaultCacheDir NormalizePath config) = false →
  cointop.ReadDir fsys
    (cointop_reading.cache_dir DefaultCacheDir NormalizePath config)
  = Ok (pre ++ name :: post) →
  (∀ n, n ∈ pre → String.prefix "fcache." n = true →
     cointop.Remove fsys
       (cointop_reading.cache_file
          (cointop_reading.cache_dir DefaultCacheDir NormalizePath config) n)
     = None) →
  String.prefix "fcache." name = true →
  cointop.Remove fsys
    (cointop_reading.cache_file
       (cointop_reading.cache_dir DefaultCacheDir NormalizePath config) name)
  = Some msg →
  snd (cointop.Clean DefaultCacheDir NormalizePath fsys config) = Some msg
  ∧ cointop_reading.removed
      (fst (cointop.Clean DefaultCacheDir NormalizePath fsys config))
    = map (cointop_reading.cache_file
             (cointop_reading.cache_dir DefaultCacheDir NormalizePath config))
          (List.filter (String.prefix "fcache.") pre)
        ++ [cointop_reading.cache_file
              (cointop_reading.cache_dir DefaultCacheDir NormalizePath config) name].
Proof.
  intros Hstat Hread Hpre Hname Hfail. rewrite Clean_unfold. cbv zeta.
  rewrite Hstat, Hread. cbn [negb].
  destruct (clean_files_stops fsys
              (match config with Some cfg => cointop.Log cfg | None => false end)
              _ pre post name msg false Hpre Hname Hfail) as [Hrem Herr].
  destruct (cointop.clean_files fsys _ _ (pre ++ name :: post) false)
    as [tr [cleaned err]].
  cbn [fst snd] in *. subst err. done.
Qed.

End CleanTheorems.

Lemma Clean_removes_cache_files_witness :
  cointop_reading.removed
    (fst (cointop.Clean "/cache" (fun path => path) cointop_reading.healthy None))
  = ["/cache/fcache.coins"; "/cache/fcache.market"]
  ∧ cointop.Clean "/cache" (fun path => path) cointop_reading.missing None
    = ([], None).
Proof.
  destruct (Clean_removes_cache_files "/cache" (fun path => path)
              cointop_reading.healthy None) as (Hdir & _).
  destruct (Hdir cointop_reading.entries eq_refl eq_refl) as (_ & Hall).
  split.
  - apply Hall. reflexivity.
  - apply (Clean_removes_cache_files "/cache" (fun path => path)
             cointop_reading.missing None).
    reflexivity.
Defined.

Lemma Clean_stops_at_first_failure_witness :
  snd (cointop.Clean "/cache" (fun path => path) cointop_reading.read_only
         (Some {| cointop.Log := true; cointop.CacheDir := "/tmp/c" |}))
  = Some "permission denied"
  ∧ cointop_reading.removed
      (fst (cointop.Clean "/cache" (fun path => path) cointop_reading.read_only
              (Some {| cointop.Log := true; cointop.CacheDir := "/tmp/c" |})))
    = ["/tmp/c/fcache.coins"].
Proof.
  apply (Clean_stops_at_first_failure "/cache" (fun path => path)
           cointop_reading.read_only
           (Some {| cointop.Log := true; cointop.CacheDir := "/tmp/c" |})
           ["config.toml"] ["fcache.market"] "fcache.coins" "permission denied");
    try reflexivity.
  intros n [->|H]%elem_of_cons; [discriminate|]. by apply elem_of_nil in H.
Defined.
